(** * Arts Recruitin CSV report generator: a shallow embedding

    The development follows [claude_csv_report_generator.py].  Python
    dictionaries are finite maps from column names to dynamically typed
    values, exceptions are an explicit error type, and everything the script
    reaches through a library (pandas' CSV parser, the language-model API,
    the clock and its formatters, the permissions of the disk) is a field of
    an environment record.  Stateful code is written in a state-and-error
    monad whose state survives a raised exception, as Python's does.

    Scope of the value model: cells are [None], booleans, integers, strings
    and the float [nan] that pandas puts in an empty cell.  Finite
    floating-point cells are not represented.  Strings are byte strings;
    [lower] and [title] act on ASCII letters. *)

From Stdlib Require Import ZArith Ascii String List Sorting.Sorted Permutation.
From stdpp Require Import base option list strings pretty gmap.

Local Open Scope Z_scope.
Local Open Scope string_scope.
Local Open Scope list_scope.

(** ** Python values and exceptions *)

Inductive Value : Type :=
  | VNone
  | VBool (b : bool)
  | VInt (n : Z)
  | VNaN
  | VStr (s : string).

Inductive Exn : Type :=
  | TypeError (msg : string)
  | ValueError (msg : string)
  | AttributeError (msg : string)
  | KeyError (key : string)
  | ZeroDivisionError (msg : string)
  | OSError (msg : string)
  | LibraryError (msg : string).

(** [str(e)] *)
Definition exn_str (e : Exn) : string :=
  match e with
  | TypeError m | ValueError m | AttributeError m
  | ZeroDivisionError m | OSError m | LibraryError m => m
  | KeyError k => "'" +:+ k +:+ "'"
  end.

Inductive result (A : Type) : Type :=
  | Ok (a : A)
  | Raise (e : Exn).
Arguments Ok {A} a.
Arguments Raise {A} e.

Definition rbind {A B} (r : result A) (k : A -> result B) : result B :=
  match r with
  | Ok a => k a
  | Raise e => Raise e
  end.

(** A Python dict keyed by strings. *)
Abbreviation Dict := (gmap string Value).

(** [d.get(key)] *)
Definition dict_get (d : Dict) (key : string) : Value :=
  default VNone (d !! key).

(** [d.get(key, dflt)] *)
Definition dict_get_or (d : Dict) (key : string) (dflt : Value) : Value :=
  default dflt (d !! key).

(** ** Strings *)

Definition nl : string := String (ascii_of_nat 10) EmptyString.

(** [needle in hay] on two strings *)
Fixpoint is_infix (needle hay : string) : bool :=
  if String.prefix needle hay then true
  else match hay with
       | EmptyString => false
       | String _ hay' => is_infix needle hay'
       end.

Definition lower_ascii (c : ascii) : ascii :=
  let n := nat_of_ascii c in
  if (andb (Nat.leb 65 n) (Nat.leb n 90)) then ascii_of_nat (n + 32) else c.

Definition upper_ascii (c : ascii) : ascii :=
  let n := nat_of_ascii c in
  if (andb (Nat.leb 97 n) (Nat.leb n 122)) then ascii_of_nat (n - 32) else c.

Definition is_letter (c : ascii) : bool :=
  let n := nat_of_ascii c in
  orb (andb (Nat.leb 65 n) (Nat.leb n 90)) (andb (Nat.leb 97 n) (Nat.leb n 122)).

(** [s.lower()] *)
Fixpoint lower (s : string) : string :=
  match s with
  | EmptyString => EmptyString
  | String c s' => String (lower_ascii c) (lower s')
  end.

(** [s.title()]: a letter that follows a letter is lowered, any other
    letter is raised. *)
Fixpoint title_from (after_letter : bool) (s : string) : string :=
  match s with
  | EmptyString => EmptyString
  | String c s' =>
      String (if after_letter then lower_ascii c else upper_ascii c)
             (title_from (is_letter c) s')
  end.

Definition title (s : string) : string := title_from false s.

(** [s.replace(old, new)] for one-character [old] and [new] *)
Fixpoint replace (old new : ascii) (s : string) : string :=
  match s with
  | EmptyString => EmptyString
  | String c s' =>
      String (if Ascii.eqb c old then new else c) (replace old new s')
  end.

(** Thousands separators of the [,] format option, on the reversed digits. *)
Fixpoint commas_rev (ds : list ascii) (k : nat) : list ascii :=
  match ds with
  | [] => []
  | d :: rest =>
      match k with
      | 3%nat => ","%char :: d :: commas_rev rest 1
      | _ => d :: commas_rev rest (S k)
      end
  end.

(** [format(n, ',')] for an int *)
Definition format_comma (n : Z) : string :=
  let digits := list_ascii_of_string (pretty (Z.abs n)) in
  let grouped := string_of_list_ascii (rev (commas_rev (rev digits) 0)) in
  if Z.ltb n 0 then "-" +:+ grouped else grouped.

(** ** Operations on values *)

Definition type_name (v : Value) : string :=
  match v with
  | VNone => "NoneType"
  | VBool _ => "bool"
  | VInt _ => "int"
  | VNaN => "float"
  | VStr _ => "str"
  end.

(** [str(v)], what an f-string field without format option shows *)
Definition py_str (v : Value) : string :=
  match v with
  | VNone => "None"
  | VBool true => "True"
  | VBool false => "False"
  | VInt n => pretty n
  | VNaN => "nan"
  | VStr s => s
  end.

(** [f"{v:,}"] *)
Definition py_format_comma (v : Value) : result string :=
  match v with
  | VInt n => Ok (format_comma n)
  | VBool b => Ok (if b then "1" else "0")
  | VNaN => Ok "nan"
  | VStr _ => Raise (ValueError "Cannot specify ',' with 's'.")
  | VNone =>
      Raise (TypeError "unsupported format string passed to NoneType.__format__")
  end.

(** [x in container] *)
Definition py_in (x container : Value) : result bool :=
  match container with
  | VStr hay =>
      match x with
      | VStr needle => Ok (is_infix needle hay)
      | _ => Raise (TypeError ("'in <string>' requires string as left operand, not "
                               +:+ type_name x))
      end
  | _ => Raise (TypeError ("argument of type '" +:+ type_name container
                           +:+ "' is not iterable"))
  end.

(** [v.lower()] *)
Definition py_lower (v : Value) : result string :=
  match v with
  | VStr s => Ok (lower s)
  | _ => Raise (AttributeError ("'" +:+ type_name v
                                +:+ "' object has no attribute 'lower'"))
  end.

(** [v.replace(' ', '_')] *)
Definition py_replace_space (v : Value) : result string :=
  match v with
  | VStr s => Ok (replace " "%char "_"%char s)
  | _ => Raise (AttributeError ("'" +:+ type_name v
                                +:+ "' object has no attribute 'replace'"))
  end.

(** [a + b] where [a] is the running total of [sum], an int or [nan] *)
Definition py_add (a b : Value) : result Value :=
  match a, b with
  | VInt x, VInt y => Ok (VInt (x + y))
  | VInt x, VBool y => Ok (VInt (x + Z.b2z y))
  | VInt _, VNaN | VNaN, VInt _ | VNaN, VBool _ | VNaN, VNaN => Ok VNaN
  | _, _ => Raise (TypeError ("unsupported operand type(s) for +: '"
                              +:+ type_name a +:+ "' and '" +:+ type_name b +:+ "'"))
  end.

(** [sum(vs)], which starts from the int [0] *)
Fixpoint py_sum_from (acc : Value) (vs : list Value) : result Value :=
  match vs with
  | [] => Ok acc
  | v :: vs' => rbind (py_add acc v) (fun acc' => py_sum_from acc' vs')
  end.

Definition py_sum (vs : list Value) : result Value := py_sum_from (VInt 0) vs.

(** [a // n] for an int [n] *)
Definition py_floordiv (a : Value) (n : Z) : result Value :=
  match a with
  | VInt x =>
      if Z.eqb n 0 then Raise (ZeroDivisionError "integer division or modulo by zero")
      else Ok (VInt (x / n))
  | VBool b =>
      if Z.eqb n 0 then Raise (ZeroDivisionError "integer division or modulo by zero")
      else Ok (VInt (Z.b2z b / n))
  | VNaN =>
      if Z.eqb n 0 then Raise (ZeroDivisionError "float floor division by zero")
      else Ok VNaN
  | _ => Raise (TypeError ("unsupported operand type(s) for //: '"
                           +:+ type_name a +:+ "' and 'int'"))
  end.

(** ** The world outside the script *)

Record DataFrame : Type := mkDataFrame {
  df_columns : list string;
  df_rows : list Dict
}.

(** [class Config]: the settings read from the process environment. *)
Record Config : Type := mkConfig {
  PROSPECTS_CSV : string;
  MARKET_DATA_CSV : string;
  OUTPUT_DIR : string;
  CLAUDE_MODEL : string
}.

Inductive Level : Type := INFO | ERROR.

(** The mutable state a run can observe or change: the files on disk (path
    to contents), the lines handed to [logger], and how many times the clock
    has been read. *)
Record World : Type := mkWorld {
  fs : gmap string string;
  log : list (Level * string);
  ticks : nat
}.

(** Library code and external services the script calls but does not
    define.  Times are clock readings in microseconds. *)
Record Env : Type := mkEnv {
  config : Config;
  (** pandas' parser, on the contents of a file *)
  parse_csv : string -> result DataFrame;
  (** [client.messages.create(model, max_tokens, messages)] followed by
      [response.content[0].text], given model, token limit and prompt *)
  messages_create : string -> Z -> string -> result string;
  (** the reading that the [n]-th call of [datetime.now()] returns *)
  clock : nat -> Z;
  (** [t.isoformat()] and [t.strftime(fmt)] *)
  isoformat : Z -> string;
  strftime : string -> Z -> string;
  (** [str(d.total_seconds())] and [f"{d.total_seconds():.2f}"] of a
      difference of two readings *)
  seconds_str : Z -> string;
  seconds_2f : Z -> string;
  (** whether [open(path, 'w')] or [open(path, 'a')] succeeds *)
  can_open : string -> bool
}.

(** ** State and exceptions *)

Definition M (S A : Type) : Type := S -> result A * S.

Definition ret {S A} (a : A) : M S A := fun s => (Ok a, s).

Definition raise {S A} (e : Exn) : M S A := fun s => (Raise e, s).

Definition bind {S A B} (m : M S A) (k : A -> M S B) : M S B :=
  fun s => match m s with
           | (Ok a, s') => k a s'
           | (Raise e, s') => (Raise e, s')
           end.

Definition lift {S A} (r : result A) : M S A := fun s => (r, s).

(** [try: body  except Exception as e: handler] *)
Definition try_except {S A} (body : M S A) (handler : Exn -> M S A) : M S A :=
  fun s => match body s with
           | (Ok a, s') => (Ok a, s')
           | (Raise e, s') => handler e s'
           end.

Declare Scope py_scope.
Delimit Scope py_scope with py.
Notation "x <- c ;; k" := (bind c (fun x => k))
  (at level 100, c at next level, k at level 200, right associativity) : py_scope.
Notation "c ;; k" := (bind c (fun _ => k))
  (at level 100, k at level 200, right associativity) : py_scope.
Local Open Scope py_scope.

(** [for x in xs: body x], stopping at the first exception that escapes *)
Fixpoint for_each {S A} (xs : list A) (body : A -> M S unit) : M S unit :=
  match xs with
  | [] => ret tt
  | x :: xs' => body x ;; for_each xs' body
  end.

(** A list comprehension [[x for x in xs if test x]] whose test may raise *)
Fixpoint filter_r {A} (test : A -> result bool) (xs : list A) : result (list A) :=
  match xs with
  | [] => Ok []
  | x :: xs' =>
      rbind (test x) (fun keep =>
      rbind (filter_r test xs') (fun rest =>
      Ok (if keep then x :: rest else rest)))
  end.

Definition add_log (lvl : Level) (msg : string) (w : World) : World :=
  mkWorld (fs w) (log w ++ [(lvl, msg)]) (ticks w).

Definition set_file (path content : string) (w : World) : World :=
  mkWorld (<[path := content]> (fs w)) (log w) (ticks w).

Definition logger_info (msg : string) : M World unit :=
  fun w => (Ok tt, add_log INFO msg w).

Definition logger_error (msg : string) : M World unit :=
  fun w => (Ok tt, add_log ERROR msg w).

(** [Path(p).exists()] *)
Definition path_exists (path : string) : M World bool :=
  fun w => (Ok (bool_decide (is_Some (fs w !! path))), w).

(** [f.write(text)] on the file opened at [path] *)
Definition f_write (path text : string) : M World unit :=
  fun w => (Ok tt, set_file path (default "" (fs w !! path) +:+ text) w).

(** [Path(dir) / name], as text *)
Definition path_join (dir name : string) : string := dir +:+ "/" +:+ name.

(** ** pandas *)

Definition is_na (v : Value) : bool :=
  match v with
  | VNone | VNaN => true
  | _ => false
  end.

Inductive SortKey : Type :=
  | KNum (n : Z)
  | KStr (s : string).

Definition sort_key (v : Value) : SortKey :=
  match v with
  | VInt n => KNum n
  | VBool b => KNum (Z.b2z b)
  | VStr s => KStr s
  | VNone | VNaN => KNum 0
  end.

Definition same_kind (a b : SortKey) : bool :=
  match a, b with
  | KNum _, KNum _ | KStr _, KStr _ => true
  | _, _ => false
  end.

(** [a < b] on keys of one kind *)
Definition key_ltb (a b : SortKey) : bool :=
  match a, b with
  | KNum x, KNum y => Z.ltb x y
  | KStr x, KStr y => String.ltb x y
  | KNum _, KStr _ => true
  | KStr _, KNum _ => false
  end.

(** Descending insertion that keeps rows of equal key in their order. *)
Fixpoint insert_desc (col : string) (row : Dict) (sorted : list Dict) : list Dict :=
  match sorted with
  | [] => [row]
  | r :: rest =>
      if key_ltb (sort_key (dict_get row col)) (sort_key (dict_get r col))
      then r :: insert_desc col row rest
      else row :: r :: rest
  end.

Definition sort_desc (col : string) (rows : list Dict) : list Dict :=
  foldr (insert_desc col) [] rows.

(** [df.sort_values(col, ascending=False)]: an unknown column is a
    [KeyError]; missing values go last; the rest is ordered by the column,
    largest first; a column that mixes numbers and text cannot be compared.
    Rows of equal key keep their order here; pandas' default sort does not
    promise any order among them, and no result below depends on it. *)
Definition sort_values (col : string) (df : DataFrame) : result DataFrame :=
  if bool_decide (col ∈ df_columns df) then
    let present := List.filter (fun r => negb (is_na (dict_get r col))) (df_rows df) in
    let missing := List.filter (fun r => is_na (dict_get r col)) (df_rows df) in
    match present with
    | [] => Ok (mkDataFrame (df_columns df) missing)
    | r0 :: _ =>
        if forallb (fun r => same_kind (sort_key (dict_get r0 col))
                                       (sort_key (dict_get r col))) present
        then Ok (mkDataFrame (df_columns df) (sort_desc col present ++ missing))
        else Raise (TypeError "'<' not supported between instances of 'str' and 'int'")
    end
  else Raise (KeyError col).

(** [df.head(n)]: the first [n] rows, or all but the last [-n] rows when
    [n] is negative *)
Definition head (n : Z) (df : DataFrame) : DataFrame :=
  mkDataFrame (df_columns df)
    (if Z.leb 0 n then take (Z.to_nat n) (df_rows df)
     else take (Z.to_nat (Z.of_nat (length (df_rows df)) + n)) (df_rows df)).

(** [df.to_dict('records')] *)
Definition to_dict_records (df : DataFrame) : list Dict := df_rows df.

(** ** The [csv] module's writer *)

Definition dquote : ascii := ascii_of_nat 34.
Definition cr : ascii := ascii_of_nat 13.
Definition lf : ascii := ascii_of_nat 10.

(** how [csv.writer] shows a cell: [None] is empty, the rest is [str] *)
Definition csv_field (v : Value) : string :=
  match v with
  | VNone => ""
  | _ => py_str v
  end.

Definition needs_quote (s : string) : bool :=
  existsb (fun c => orb (orb (Ascii.eqb c ","%char) (Ascii.eqb c dquote))
                        (orb (Ascii.eqb c cr) (Ascii.eqb c lf)))
          (list_ascii_of_string s).

Fixpoint double_quotes (s : string) : string :=
  match s with
  | EmptyString => EmptyString
  | String c s' =>
      if Ascii.eqb c dquote then String c (String c (double_quotes s'))
      else String c (double_quotes s')
  end.

Definition csv_quote (s : string) : string :=
  if needs_quote s
  then String dquote (double_quotes s) +:+ String dquote EmptyString
  else s.

(** [writer.writerow(cells)] with [newline=''] *)
Definition csv_line (cells : list string) : string :=
  String.concat "," (map csv_quote cells) +:+ String cr (String lf EmptyString).

Definition analytics_header : list string :=
  ["timestamp"; "report_type"; "company_name"; "file_path"; "success";
   "processing_time"].

(** The dict handed to [save_report_metadata]; a key may be absent.  The
    processing time is a difference of clock readings. *)
Record ReportData : Type := mkReportData {
  rd_type : option Value;
  rd_company_name : option Value;
  rd_file_path : option Value;
  rd_success : option Value;
  rd_processing_time : option Z
}.

(** The local list [report_files] next to the world, for the loop that
    appends to it. *)
Record Frame : Type := mkFrame {
  world : World;
  report_files : list string
}.

Definition io {A} (m : M World A) : M Frame A :=
  fun fr => let '(r, w') := m (world fr) in (r, mkFrame w' (report_files fr)).

(** [report_files.append(path)] *)
Definition append_report_file (path : string) : M Frame unit :=
  fun fr => (Ok tt, mkFrame (world fr) (report_files fr ++ [path])).

(** Run a block that uses [report_files], starting from [[]]. *)
Definition with_report_files (block : M Frame unit) : M World (list string) :=
  fun w => match block (mkFrame w []) with
           | (Ok _, fr) => (Ok (report_files fr), world fr)
           | (Raise e, fr) => (Raise e, world fr)
           end.

(** [enumerate(xs, start)] *)
Fixpoint enumerate (start : nat) {A} (xs : list A) : list (nat * A) :=
  match xs with
  | [] => []
  | x :: xs' => (start, x) :: enumerate (S start) xs'
  end.

Definition weekly_prompt : string := "
Schrijf een professionele Nederlandse recruitment markt analyse voor dit bedrijf.

STRUCTUUR:
1. Executive Summary (2-3 zinnen)
2. Bedrijfsanalyse (positie in de markt)
3. Functie-analyse (specifieke rol details)
4. Marktcontext (salary benchmarks, groei trends)
5. Recruitment strategie aanbevelingen
6. Actie items

Schrijf in professionele maar toegankelijke Nederlandse taal.
Gebruik concrete cijfers en data waar beschikbaar.
Houd het beknopt maar informatief (max 800 woorden).
".

Definition monthly_prompt : string := "
Schrijf een uitgebreide Nederlandse sector analyse rapport.

STRUCTUUR:
1. Sector Overview
2. Markt Trends & Ontwikkelingen
3. Salary Benchmarks
4. Skills Gap Analyse
5. Growth Opportunities
6. Strategic Recommendations
7. Forecast & Outlook

Schrijf een diepgaand rapport van 1500-2000 woorden.
Gebruik alle beschikbare marktdata.
Focus op actionable insights voor recruitment professionals.
".

(** ** [ClaudeClient.generate_report]: the context block *)

(** The f-string that opens the context. *)
Definition context_header (prospect_data : Dict) : result string :=
  rbind (py_format_comma (dict_get_or prospect_data "salary_min" (VInt 0))) (fun salary_min =>
  rbind (py_format_comma (dict_get_or prospect_data "salary_max" (VInt 0))) (fun salary_max =>
  Ok ("
PROSPECT DATA:
Company: " +:+ py_str (dict_get_or prospect_data "company_name" (VStr "N/A")) +:+ "
Industry: " +:+ py_str (dict_get_or prospect_data "industry" (VStr "N/A")) +:+ "
Size: " +:+ py_str (dict_get_or prospect_data "company_size" (VStr "N/A")) +:+ "
Location: " +:+ py_str (dict_get_or prospect_data "location" (VStr "N/A")) +:+ "
Role: " +:+ py_str (dict_get_or prospect_data "job_title" (VStr "N/A")) +:+ "
Salary Range: €" +:+ salary_min +:+ " - €" +:+ salary_max +:+ "
Days Open: " +:+ py_str (dict_get_or prospect_data "days_open" (VInt 0)) +:+ "
Contact: " +:+ py_str (dict_get_or prospect_data "contact_name" (VStr "N/A"))
    +:+ " (" +:+ py_str (dict_get_or prospect_data "contact_title" (VStr "N/A")) +:+ ")
Tier Score: " +:+ py_str (dict_get_or prospect_data "tier_score" (VInt 0)) +:+ "/100

MARKET CONTEXT:
"))).

(** The f-string added for one matching market row. *)
Definition sector_block (sector : Dict) : result string :=
  rbind (py_format_comma (dict_get_or sector "average_salary" (VInt 0))) (fun average_salary =>
  Ok ("
Sector: " +:+ py_str (dict_get sector "sector") +:+ "
Average Salary: €" +:+ average_salary +:+ "
Open Positions: " +:+ py_str (dict_get_or sector "open_positions" (VInt 0)) +:+ "
Growth: " +:+ py_str (dict_get_or sector "growth_percentage" (VInt 0)) +:+ "%
Skills in Demand: " +:+ py_str (dict_get_or sector "top_skills" (VStr "N/A")) +:+ "
Market Trend: " +:+ py_str (dict_get_or sector "market_trend" (VStr "N/A")) +:+ "
")).

(** [sector.get('sector') in prospect_data.get('industry', '')] *)
Definition sector_matches (prospect_data sector : Dict) : result bool :=
  py_in (dict_get sector "sector") (dict_get_or prospect_data "industry" (VStr "")).

(** The loop [for sector in market_context: if ...: context += ...]. *)
Fixpoint add_market_context (prospect_data : Dict) (market_context : list Dict)
    (context : string) : result string :=
  match market_context with
  | [] => Ok context
  | sector :: rest =>
      rbind (sector_matches prospect_data sector) (fun hit =>
      if hit
      then rbind (sector_block sector) (fun block =>
           add_market_context prospect_data rest (context +:+ block))
      else add_market_context prospect_data rest context)
  end.

Definition build_context (prospect_data : Dict) (market_context : list Dict)
    : result string :=
  rbind (context_header prospect_data) (fun context =>
  add_market_context prospect_data market_context context).

(** ** The script, in a given environment *)

Section Script.

Variable env : Env.

(** [datetime.now()] *)
Definition now : M World Z :=
  fun w => (Ok (clock env (ticks w)), mkWorld (fs w) (log w) (S (ticks w))).

(** [pd.read_csv(path)] *)
Definition read_csv (path : string) : M World DataFrame :=
  fun w => match fs w !! path with
           | Some content => (parse_csv env content, w)
           | None => (Raise (OSError ("[Errno 2] No such file or directory: '"
                                      +:+ path +:+ "'")), w)
           end.

(** [open(path, 'w')]: the file is created or emptied *)
Definition open_w (path : string) : M World unit :=
  fun w => if can_open env path then (Ok tt, set_file path "" w)
           else (Raise (OSError ("[Errno 13] Permission denied: '" +:+ path +:+ "'")), w).

(** [open(path, 'a')]: the file is created if absent, its contents stay *)
Definition open_a (path : string) : M World unit :=
  fun w => if can_open env path
           then (Ok tt, set_file path (default "" (fs w !! path)) w)
           else (Raise (OSError ("[Errno 13] Permission denied: '" +:+ path +:+ "'")), w).

(** *** [class CSVDataManager] *)

(** The body of the [try] in [get_prospects]. *)
Definition get_prospects_try (limit : Z) : M World (list Dict) :=
  df <- read_csv (PROSPECTS_CSV (config env)) ;;
  df <- lift (sort_values "tier_score" df) ;;
  ret (to_dict_records (head limit df)).

Definition get_prospects (limit : Z) : M World (list Dict) :=
  try_except
    (get_prospects_try limit)
    (fun e =>
       logger_error ("Error reading prospects CSV: " +:+ exn_str e) ;;
       ret []).

(** The body of the [try] in [get_market_data]. *)
Definition get_market_data_try : M World (list Dict) :=
  df <- read_csv (MARKET_DATA_CSV (config env)) ;;
  ret (to_dict_records df).

Definition get_market_data : M World (list Dict) :=
  try_except
    get_market_data_try
    (fun e =>
       logger_error ("Error reading market data CSV: " +:+ exn_str e) ;;
       ret []).

Definition metadata_file : string :=
  path_join (OUTPUT_DIR (config env)) "report_analytics.csv".

(** The cells of the record appended for [report_data] at time [t]. *)
Definition metadata_row (report_data : ReportData) (t : Z) : list string :=
  [isoformat env t;
   csv_field (default (VStr "unknown") (rd_type report_data));
   csv_field (default (VStr "") (rd_company_name report_data));
   csv_field (default (VStr "") (rd_file_path report_data));
   csv_field (default (VBool false) (rd_success report_data));
   match rd_processing_time report_data with
   | Some d => seconds_str env d
   | None => "0"
   end].

Definition save_report_metadata (report_data : ReportData) : M World unit :=
  present <- path_exists metadata_file ;;
  (if negb present
   then open_w metadata_file ;;
        f_write metadata_file (csv_line analytics_header)
   else ret tt) ;;
  open_a metadata_file ;;
  t <- now ;;
  f_write metadata_file (csv_line (metadata_row report_data t)).

(** *** [class ClaudeClient] *)

Definition generate_report (prompt : string) (prospect_data : Dict)
    (market_context : list Dict) : M World string :=
  context <- lift (build_context prospect_data market_context) ;;
  let full_prompt := prompt +:+ nl +:+ nl +:+ context in
  try_except
    (lift (messages_create env (CLAUDE_MODEL (config env)) 4000 full_prompt))
    (fun e =>
       logger_error ("Claude API error: " +:+ exn_str e) ;;
       ret ("Error generating report: " +:+ exn_str e)).

(** *** [class ReportGenerator] *)

(** The [try] of the loop in [generate_weekly_reports], first part: the
    report is generated and written to its file (lines 234 to 251). *)
Definition weekly_write (market_data : list Dict) (total : nat)
    (i : nat) (prospect : Dict) : M World string :=
  logger_info ("Processing prospect " +:+ pretty i +:+ "/" +:+ pretty total
               +:+ ": " +:+ py_str (dict_get prospect "company_name")) ;;
  report_content <- generate_report weekly_prompt prospect market_data ;;
  company_name <- lift (py_replace_space
                          (dict_get_or prospect "company_name" (VStr "Unknown"))) ;;
  t <- now ;;
  let filename := "Weekly_Report_" +:+ company_name +:+ "_"
                  +:+ strftime env "%Y%m%d" t +:+ ".md" in
  let file_path := path_join (OUTPUT_DIR (config env)) filename in
  open_w file_path ;;
  f_write file_path ("# Weekly Recruitment Report - "
                     +:+ py_str (dict_get prospect "company_name") +:+ nl +:+ nl) ;;
  t <- now ;;
  f_write file_path ("**Generated:** " +:+ strftime env "%d-%m-%Y %H:%M" t
                     +:+ nl +:+ nl) ;;
  f_write file_path report_content ;;
  ret file_path.

(** Last part of the [try]: the metadata record and the log line (lines 255
    to 264). *)
Definition weekly_record (start_time : Z) (prospect : Dict) (file_path : string)
    : M World unit :=
  t <- now ;;
  save_report_metadata
    (mkReportData (Some (VStr "weekly"))
                  (Some (dict_get prospect "company_name"))
                  (Some (VStr file_path))
                  (Some (VBool true))
                  (Some (t - start_time))) ;;
  logger_info ("Report saved: " +:+ file_path).

(** The whole [try]: between the two parts the path joins [report_files]
    (line 253). *)
Definition weekly_try (start_time : Z) (market_data : list Dict) (total : nat)
    (i : nat) (prospect : Dict) : M Frame unit :=
  file_path <- io (weekly_write market_data total i prospect) ;;
  append_report_file file_path ;;
  io (weekly_record start_time prospect file_path).

(** One turn of the loop: the [try] and its [except Exception]. *)
Definition weekly_turn (start_time : Z) (market_data : list Dict) (total : nat)
    (ip : nat * Dict) : M Frame unit :=
  let '(i, prospect) := ip in
  try_except
    (weekly_try start_time market_data total i prospect)
    (fun e =>
       io (logger_error ("Error processing prospect "
                         +:+ py_str (dict_get prospect "company_name")
                         +:+ ": " +:+ exn_str e))).

(** Lines 225 to 229: what happens before the loop. *)
Definition weekly_setup (prospects_count : Z) : M World (Z * list Dict * list Dict) :=
  start_time <- now ;;
  logger_info ("Generating weekly reports for top " +:+ pretty prospects_count
               +:+ " prospects") ;;
  prospects <- get_prospects prospects_count ;;
  market_data <- get_market_data ;;
  ret (start_time, prospects, market_data).

Definition generate_weekly_reports (prospects_count : Z) : M World (list string) :=
  setup <- weekly_setup prospects_count ;;
  let '(start_time, prospects, market_data) := setup in
  report_files <- with_report_files
    (for_each (enumerate 1 prospects)
              (weekly_turn start_time market_data (length prospects))) ;;
  t <- now ;;
  logger_info ("Generated " +:+ pretty (length report_files) +:+ " reports in "
               +:+ seconds_2f env (t - start_time) +:+ " seconds") ;;
  ret report_files.

(** [sector.lower() in item.get(field, '').lower()] *)
Definition sector_filter (sector field : string) (item : Dict) : result bool :=
  rbind (py_lower (dict_get_or item field (VStr ""))) (fun name =>
  Ok (is_infix (lower sector) name)).

(** Lines 284 to 286: the two filters, skipped for ['all']. *)
Definition filter_by_sector (sector : string) (market_data prospects : list Dict)
    : result (list Dict * list Dict) :=
  if bool_decide (sector <> "all") then
    rbind (filter_r (sector_filter sector "sector") market_data) (fun market_data' =>
    rbind (filter_r (sector_filter sector "industry") prospects) (fun prospects' =>
    Ok (market_data', prospects')))
  else Ok (market_data, prospects).

(** The expression stored under ['avg_salary']. *)
Definition avg_salary (market_data : list Dict) : result Value :=
  match market_data with
  | [] => Ok (VInt 0)
  | _ :: _ =>
      rbind (py_sum (map (fun item => dict_get_or item "average_salary" (VInt 0))
                         market_data)) (fun total =>
      py_floordiv total (Z.of_nat (length market_data)))
  end.

(** The dict [context] of lines 289 to 295. *)
Definition aggregate_context (sector : string) (market_data prospects : list Dict)
    : result Dict :=
  rbind (avg_salary market_data) (fun avg =>
  rbind (py_sum (map (fun item => dict_get_or item "open_positions" (VInt 0))
                     market_data)) (fun total_positions =>
  Ok (<["sector" := VStr sector]>
      (<["total_prospects" := VInt (Z.of_nat (length prospects))]>
      (<["market_segments" := VInt (Z.of_nat (length market_data))]>
      (<["avg_salary" := avg]>
      (<["total_positions" := total_positions]> ∅))))))).

(** [generate_monthly_report] up to the aggregated context: the two reads,
    the filter and the aggregates.  The filtered market data is returned
    with the context because the report is generated from both. *)
Definition monthly_context (sector : string) : M World (Dict * list Dict) :=
  market_data <- get_market_data ;;
  prospects <- get_prospects 50 ;;
  filtered <- lift (filter_by_sector sector market_data prospects) ;;
  context <- lift (aggregate_context sector (fst filtered) (snd filtered)) ;;
  ret (context, fst filtered).

Definition generate_monthly_report (sector : string) : M World string :=
  start_time <- now ;;
  logger_info ("Generating monthly report for sector: " +:+ sector) ;;
  cm <- monthly_context sector ;;
  report_content <- generate_report monthly_prompt (fst cm) (snd cm) ;;
  t <- now ;;
  let filename := "Monthly_Report_" +:+ sector +:+ "_" +:+ strftime env "%Y%m" t
                  +:+ ".md" in
  let file_path := path_join (OUTPUT_DIR (config env)) filename in
  open_w file_path ;;
  f_write file_path ("# Monthly Sector Report - " +:+ title sector +:+ nl +:+ nl) ;;
  t <- now ;;
  f_write file_path ("**Generated:** " +:+ strftime env "%d-%m-%Y %H:%M" t
                     +:+ nl +:+ nl) ;;
  f_write file_path report_content ;;
  t <- now ;;
  save_report_metadata
    (mkReportData (Some (VStr "monthly"))
                  (Some (VStr ("Sector_" +:+ sector)))
                  (Some (VStr file_path))
                  (Some (VBool true))
                  (Some (t - start_time))) ;;
  logger_info ("Monthly report saved: " +:+ file_path) ;;
  ret file_path.

End Script.

(** ** [ReportGenerator._load_prompt_template] (lines 186 to 221) *)

Definition templates : gmap string string :=
  <["weekly" := weekly_prompt]> (<["monthly" := monthly_prompt]> ∅).

(** [templates.get(report_type, templates['weekly'])] *)
Definition load_prompt_template (report_type : string) : string :=
  default (default "" (templates !! "weekly")) (templates !! report_type).

(** ** The Flask handlers (lines 329 to 390) *)

(** What [jsonify] is given. *)
#[local] Unset Elimination Schemes.
Inductive Json : Type :=
  | JStr (s : string)
  | JInt (n : Z)
  | JBool (b : bool)
  | JList (items : list Json)
  | JObj (fields : list (string * Json)).
#[local] Set Elimination Schemes.

(** A JSON body and the HTTP status it is sent with. *)
Record Response : Type := mkResponse {
  body : Json;
  status : Z
}.

Section Delivery.

Variable env : Env.

(** [weekly_endpoint], for a process whose [generator] exists.  The
    argument is the query parameter 'prospects' once werkzeug has converted
    it: [None] when the parameter is absent or is not an integer, and then
    [request.args.get] gives the default. *)
Definition weekly_endpoint (prospects_arg : option Z) : M World Response :=
  try_except
    (let prospects := default 10 prospects_arg in
     logger_info ("API request: weekly reports for " +:+ pretty prospects
                  +:+ " prospects") ;;
     report_files <- generate_weekly_reports env prospects ;;
     ret (mkResponse
            (JObj [("success", JBool true);
                   ("reports", JList (map JStr report_files));
                   ("count", JInt (Z.of_nat (length report_files)));
                   ("message", JStr ("Generated " +:+ pretty (length report_files)
                                     +:+ " weekly reports"))])
            200))
    (fun e =>
       logger_error ("API error in weekly endpoint: " +:+ exn_str e) ;;
       ret (mkResponse (JObj [("success", JBool false); ("error", JStr (exn_str e))])
                       500)).

(** [monthly_endpoint], for a process whose [generator] exists; the
    argument is the query parameter 'sector' when present. *)
Definition monthly_endpoint (sector_arg : option string) : M World Response :=
  try_except
    (let sector := default "all" sector_arg in
     logger_info ("API request: monthly report for sector " +:+ sector) ;;
     report_file <- generate_monthly_report env sector ;;
     ret (mkResponse
            (JObj [("success", JBool true);
                   ("report", JStr report_file);
                   ("message", JStr ("Generated monthly report for " +:+ sector))])
            200))
    (fun e =>
       logger_error ("API error in monthly endpoint: " +:+ exn_str e) ;;
       ret (mkResponse (JObj [("success", JBool false); ("error", JStr (exn_str e))])
                       500)).

(** [health_check] *)
Definition health_check : M World Response :=
  t <- now env ;;
  prospects <- path_exists (PROSPECTS_CSV (config env)) ;;
  market_data <- path_exists (MARKET_DATA_CSV (config env)) ;;
  ret (mkResponse
         (JObj [("status", JStr "healthy");
                ("timestamp", JStr (isoformat env t));
                ("csv_files", JObj [("prospects", JBool prospects);
                                    ("market_data", JBool market_data)])])
         200).

End Delivery.

(** ** Notions used to state the properties *)

(** The market row [sector] names a sector that occurs, as written, inside
    the industry of [prospect_data]. *)
Definition sector_in_industry (prospect_data sector : Dict) : bool :=
  match dict_get sector "sector", dict_get_or prospect_data "industry" (VStr "") with
  | VStr name, VStr industry => is_infix name industry
  | _, _ => false
  end.

(** The text under [field] of [item] contains [sector], letter case aside. *)
Definition name_contains (sector field : string) (item : Dict) : bool :=
  match dict_get_or item field (VStr "") with
  | VStr name => is_infix (lower sector) (lower name)
  | _ => false
  end.

(** [item] has text (or nothing) under [field]. *)
Definition has_text (field : string) (item : Dict) : Prop :=
  exists name, dict_get_or item field (VStr "") = VStr name.

(** [item] has an integer under [field], the one given, or lacks the key
    and the default is that integer. *)
Definition has_int (field : string) (item : Dict) (n : Z) : Prop :=
  dict_get_or item field (VInt 0) = VInt n.

Definition sum_Z (ns : list Z) : Z := foldr Z.add 0 ns.



(** A value the [,] format option accepts. *)
Definition comma_ok (v : Value) : Prop :=
  match v with
  | VStr _ | VNone => False
  | _ => True
  end.



(** [dict_get p "tier_score"], the column the prospects are ranked by. *)
Definition tier_score (prospect : Dict) : Value := dict_get prospect "tier_score".

(** [a] ranks at least as high as [b]: a missing score ranks lowest. *)
Definition score_ge (a b : Value) : bool :=
  orb (is_na b)
      (andb (negb (is_na a)) (negb (key_ltb (sort_key a) (sort_key b)))).

Definition row_ge (col : string) (a b : Dict) : Prop :=
  score_ge (dict_get a col) (dict_get b col) = true.

(** Among rows that have a key under [col]: [a] does not rank below [b]. *)
Definition not_below (col : string) (a b : Dict) : Prop :=
  key_ltb (sort_key (dict_get a col)) (sort_key (dict_get b col)) = false.

(** What [pd.read_csv] raises for a path that names no file. *)
Definition missing_file_error (path : string) : Exn :=
  OSError ("[Errno 2] No such file or directory: '" +:+ path +:+ "'").

(** What the turns of the weekly loop did, one entry per turn: the prospect
    and the outcome of the writing part of its [try]. *)
Fixpoint weekly_outcomes (env : Env) (start_time : Z) (market_data : list Dict)
    (total : nat) (ips : list (nat * Dict)) (fr : Frame)
    : list (Dict * result string) :=
  match ips with
  | [] => []
  | (i, prospect) :: rest =>
      (prospect, fst (weekly_write env market_data total i prospect (world fr)))
      :: weekly_outcomes env start_time market_data total rest
           (snd (weekly_turn env start_time market_data total (i, prospect) fr))
  end.

(** The paths of the reports that were written, in the order of the turns. *)
Definition written_paths (outcomes : list (Dict * result string)) : list string :=
  flat_map (fun o => match snd o with
                     | Ok path => [path]
                     | Raise _ => []
                     end) outcomes.

(** The prospects in the order in which a weekly batch takes them. *)
Definition processed_prospects (env : Env) (prospects_count : Z) (w : World)
    : list Dict :=
  match weekly_setup env prospects_count w with
  | (Ok (start_time, prospects, market_data), w0) =>
      map fst (weekly_outcomes env start_time market_data (length prospects)
                 (enumerate 1 prospects) (mkFrame w0 []))
  | (Raise _, _) => []
  end.

(** Every file of [w] is still a file of [w']. *)
Definition fs_grows (w w' : World) : Prop :=
  forall path, is_Some (fs w !! path) -> is_Some (fs w' !! path).

(** A computation that deletes no file. *)
Definition keeps_files {A} (m : M World A) : Prop :=
  forall w r w', m w = (r, w') -> fs_grows w w'.

(** Every path of [report_files] names a file. *)
Definition files_exist (fr : Frame) : Prop :=
  Forall (fun path => is_Some (fs (world fr) !! path)) (report_files fr).

(** A computation that changes no file. *)
Definition leaves_files {A} (m : M World A) : Prop :=
  forall w r w', m w = (r, w') -> fs w' = fs w.

(** The world after one reading of the clock. *)
Definition tick (w : World) : World := mkWorld (fs w) (log w) (S (ticks w)).

(** The inputs for which the Formatter produces a context block: the two
    salary bounds can be formatted and, when there are market rows, the
    industry and every sector are text and the average salary of every
    matching row can be formatted. *)
Definition buildable (prospect_data : Dict) (market_context : list Dict) : Prop :=
  comma_ok (dict_get_or prospect_data "salary_min" (VInt 0))
  /\ comma_ok (dict_get_or prospect_data "salary_max" (VInt 0))
  /\ (market_context = []
      \/ (has_text "industry" prospect_data
          /\ Forall (fun sector =>
                       (exists name, dict_get sector "sector" = VStr name)
                       /\ (sector_in_industry prospect_data sector = true ->
                           comma_ok (dict_get_or sector "average_salary" (VInt 0))))
                    market_context)).

(** The text of a weekly report file. *)
Definition weekly_report_text (env : Env) (prospect : Dict) (t : Z)
    (report_content : string) : string :=
  ("# Weekly Recruitment Report - " +:+ py_str (dict_get prospect "company_name")
   +:+ nl +:+ nl)
  +:+ ("**Generated:** " +:+ strftime env "%d-%m-%Y %H:%M" t +:+ nl +:+ nl)
  +:+ report_content.


(** The path of the weekly report of a company on the day of [t]. *)
Definition weekly_path (env : Env) (company : string) (t : Z) : string :=
  path_join (OUTPUT_DIR (config env))
    ("Weekly_Report_" +:+ replace " "%char "_"%char company +:+ "_"
     +:+ strftime env "%Y%m%d" t +:+ ".md").


(** The aggregates of no rows at all. *)
Definition empty_aggregates (sector : string) : Dict :=
  <["sector" := VStr sector]>
  (<["total_prospects" := VInt 0]>
  (<["market_segments" := VInt 0]>
  (<["avg_salary" := VInt 0]>
  (<["total_positions" := VInt 0]> ∅)))).



(** The number of rows [head] keeps. *)
Definition head_count (n : Z) (available : nat) : nat :=
  if Z.leb 0 n then Nat.min (Z.to_nat n) available
  else Z.to_nat (Z.of_nat available + n).

(** [a] and [b] both carry integer scores and [a]'s is at least [b]'s. *)
Definition int_score_ge (col : string) (a b : Dict) : Prop :=
  exists x y, dict_get a col = VInt x /\ dict_get b col = VInt y /\ y <= x.

(** ** A sample installation *)

Definition prospect_row (company : string) (industry : Value) (score : Z) : Dict :=
  <["company_name" := VStr company]>
  (<["industry" := industry]>
  (<["salary_min" := VInt 50000]>
  (<["salary_max" := VInt 70000]>
  (<["tier_score" := VInt score]> ∅)))).

Definition sector_row (name : string) (salary : Z) : Dict :=
  <["sector" := VStr name]>
  (<["average_salary" := VInt salary]>
  (<["open_positions" := VInt 120]> ∅)).

Definition prospect_columns : list string :=
  ["company_name"; "industry"; "salary_min"; "salary_max"; "tier_score"].

Definition acme : Dict := prospect_row "Acme" (VStr "FinTech") 80.
Definition bolt : Dict := prospect_row "Bolt Energy" (VStr "Energy Tech") 80.
Definition core : Dict := prospect_row "Core" (VStr "Retail") 95.
(** a row whose industry cell is empty *)
Definition nemo : Dict := prospect_row "Nemo" VNaN 95.

Definition sample_prospects : DataFrame :=
  mkDataFrame prospect_columns [acme; bolt; core].

Definition sample_market : DataFrame :=
  mkDataFrame ["sector"; "average_salary"; "open_positions"]
    [sector_row "Tech" 65001; sector_row "Energy" 58000; sector_row "Retail" 41000].

Definition prospects_text : string :=
  "company_name,industry,salary_min,salary_max,tier_score
Acme,FinTech,50000,70000,80
Bolt Energy,Energy Tech,50000,70000,80
Core,Retail,50000,70000,95
".

Definition market_text : string :=
  "sector,average_salary,open_positions
Tech,65001,120
Energy,58000,120
Retail,41000,120
".

Definition sample_config : Config :=
  mkConfig "prospects.csv" "market.csv" "out" "claude-sonnet-4-20250514".

(** An installation where the two files parse to the frames above, the API
    answers every prompt, the clock advances one second per reading and
    every file can be opened; [api] is the answer of the API. *)
Definition sample_env_with (api : result string) : Env :=
  mkEnv sample_config
    (fun content =>
       if String.eqb content prospects_text then Ok sample_prospects
       else if String.eqb content market_text then Ok sample_market
       else Raise (LibraryError "No columns to parse from file"))
    (fun _ _ _ => api)
    (fun n => 1000000 * Z.of_nat n)
    (fun t => "t" +:+ pretty t)
    (fun fmt t => "20250106")
    (fun d => pretty d)
    (fun d => pretty d)
    (fun _ => true).

Definition sample_env : Env := sample_env_with (Ok "Rapport.").

(** The same installation with the API out of reach. *)
Definition offline_env : Env :=
  sample_env_with (Raise (LibraryError "Connection error.")).

(** A market file in which the sector cell of one row is empty. *)
Definition gappy_market : DataFrame :=
  mkDataFrame ["sector"; "average_salary"; "open_positions"]
    [sector_row "Tech" 65001;
     <["sector" := VNaN]> (<["average_salary" := VInt 30000]> ∅)].

Definition gappy_env : Env :=
  mkEnv sample_config
    (fun content =>
       if String.eqb content prospects_text then Ok sample_prospects
       else Ok gappy_market)
    (fun _ _ _ => Ok "Rapport.")
    (fun n => 1000000 * Z.of_nat n)
    (fun t => "t" +:+ pretty t)
    (fun fmt t => "20250106")
    (fun d => pretty d)
    (fun d => pretty d)
    (fun _ => true).

Definition sample_world : World :=
  mkWorld (<["prospects.csv" := prospects_text]>
           (<["market.csv" := market_text]> ∅)) [] 0.

(** A disk without the two input files. *)
Definition empty_world : World := mkWorld ∅ [] 0.

(** ** Strings: what [in] means *)

Lemma app_nil_l (s : string) : "" +:+ s = s.
Proof. reflexivity. Qed.

Lemma app_cons_l (c : ascii) (a s : string) :
  String c a +:+ s = String c (a +:+ s).
Proof. reflexivity. Qed.

Lemma prefix_nil (b : string) : String.prefix "" b = true.
Proof. destruct b; reflexivity. Qed.

Lemma prefix_app (a b : string) :
  String.prefix a b = true <-> exists post, b = a +:+ post.
Proof.
  revert b. induction a as [|c a IH]; intros b.
  - rewrite prefix_nil. split; [intros _; exists b; reflexivity | reflexivity].
  - destruct b as [|d b]; simpl.
    + split; [discriminate | intros [post H]; discriminate].
    + destruct (Ascii.ascii_dec c d) as [->|Hne].
      * rewrite IH. split; intros [post H]; exists post.
        -- rewrite app_cons_l. now rewrite H.
        -- rewrite app_cons_l in H. now inversion H.
      * split; [discriminate |].
        intros [post H]. rewrite app_cons_l in H. inversion H. congruence.
Qed.

Lemma is_infix_spec (needle hay : string) :
  is_infix needle hay = true <-> exists pre post, hay = pre +:+ needle +:+ post.
Proof.
  induction hay as [|c hay IH]; cbn [is_infix].
  - destruct (String.prefix needle "") eqn:Hp.
    + apply prefix_app in Hp as [post Hp].
      split; [intros _; exists "", post; exact Hp | reflexivity].
    + split; [discriminate |].
      intros [pre [post H]]. destruct pre; [| discriminate].
      rewrite app_nil_l in H.
      assert (String.prefix needle "" = true) as Hq
        by (apply prefix_app; exists post; exact H).
      congruence.
  - destruct (String.prefix needle (String c hay)) eqn:Hp.
    + apply prefix_app in Hp as [post Hp].
      split; [intros _; exists "", post; exact Hp | reflexivity].
    + rewrite IH. split.
      * intros [pre [post H]]. exists (String c pre), post.
        rewrite app_cons_l. now rewrite H.
      * intros [pre [post H]]. destruct pre as [|d pre].
        -- rewrite app_nil_l in H.
           assert (String.prefix needle (String c hay) = true) as Hq
             by (apply prefix_app; exists post; exact H).
           congruence.
        -- rewrite app_cons_l in H. inversion H. exists pre, post. reflexivity.
Qed.

Example infix_is_case_sensitive :
  is_infix "Tech" "FinTech" = true /\ is_infix "tech" "FinTech" = false
  /\ is_infix (lower "TECH") (lower "FinTech") = true.
Proof. repeat split. Qed.

Example format_comma_groups :
  format_comma 1234567 = "1,234,567" /\ format_comma (-1000) = "-1,000"
  /\ format_comma 999 = "999" /\ format_comma 0 = "0".
Proof. repeat split; vm_compute; reflexivity. Qed.

(** ** The context block (lines 136 to 161) *)

Lemma append_assoc (a b c : string) : (a +:+ b) +:+ c = a +:+ (b +:+ c).
Proof. induction a as [|x a IH]; [reflexivity |]. rewrite !app_cons_l. now rewrite IH. Qed.


Lemma sector_matches_ok (p sector : Dict) (hit : bool) :
  sector_matches p sector = Ok hit -> hit = sector_in_industry p sector.
Proof.
  unfold sector_matches, sector_in_industry, py_in.
  destruct (dict_get_or p "industry" (VStr "")); try discriminate.
  destruct (dict_get sector "sector"); try discriminate.
  congruence.
Qed.

Lemma py_format_comma_ok (v : Value) :
  comma_ok v -> exists text, py_format_comma v = Ok text.
Proof. destruct v; simpl; intros H; try contradiction; eauto. Qed.




(** ** The monthly filter (lines 284 to 286) *)

Lemma filter_r_ok (sector field : string) (items : list Dict) :
  forall kept,
    filter_r (sector_filter sector field) items = Ok kept ->
    kept = List.filter (name_contains sector field) items.
Proof.
  induction items as [|item items IH]; intros kept H; simpl in H.
  - now inversion H.
  - unfold sector_filter at 1 in H. simpl. unfold name_contains at 1.
    destruct (dict_get_or item field (VStr "")); simpl in H; try discriminate.
    destruct (filter_r (sector_filter sector field) items) as [rest|e];
      simpl in H; [| discriminate].
    inversion H. rewrite (IH rest eq_refl). reflexivity.
Qed.



(** ** The average salary (lines 289 to 295) *)

Lemma py_sum_from_ints (ns : list Z) :
  forall acc, py_sum_from (VInt acc) (map VInt ns) = Ok (VInt (acc + sum_Z ns)).
Proof.
  induction ns as [|n ns IH]; intros acc; simpl.
  - now rewrite Z.add_0_r.
  - rewrite IH. now rewrite Z.add_assoc.
Qed.

Lemma py_sum_from_raises (vs : list Value) :
  forall acc e, py_sum_from acc vs = Raise e -> exists msg, e = TypeError msg.
Proof.
  induction vs as [|v vs IH]; intros acc e H; simpl in H; [discriminate |].
  destruct (py_add acc v) as [acc'|e'] eqn:Ha; simpl in H.
  - eapply IH; eauto.
  - inversion H; subst. destruct acc, v; simpl in Ha; inversion Ha; eauto.
Qed.

Lemma py_floordiv_raises (a : Value) (n : Z) (e : Exn) :
  n <> 0 -> py_floordiv a n = Raise e -> exists msg, e = TypeError msg.
Proof.
  intros Hn H. apply Z.eqb_neq in Hn.
  destruct a; simpl in H; rewrite ?Hn in H; inversion H; eauto.
Qed.

Lemma int_fields (field : string) (items : list Dict) (ns : list Z) :
  Forall2 (has_int field) items ns ->
  map (fun item => dict_get_or item field (VInt 0)) items = map VInt ns.
Proof. induction 1 as [|item n items ns H _ IH]; simpl; [reflexivity |]. now rewrite H, IH. Qed.

(** C4.  When the average salaries of the filtered market rows are integers
    (a row without the field counts as 0), the aggregate is the floor of
    their sum divided by the number of rows, and 0 for no rows; it is what
    the context stores under 'avg_salary'.  Whatever the rows hold, the
    aggregate never fails with a division by zero. *)
Theorem avg_salary_is_floor_of_mean (market_data : list Dict) (salaries : list Z) :
  (Forall2 (has_int "average_salary") market_data salaries ->
   avg_salary market_data
   = Ok (VInt (match market_data with
               | [] => 0
               | _ :: _ => sum_Z salaries / Z.of_nat (length market_data)
               end))
   /\ forall sector prospects context,
        aggregate_context sector market_data prospects = Ok context ->
        context !! "avg_salary"
        = Some (VInt (match market_data with
                      | [] => 0
                      | _ :: _ => sum_Z salaries / Z.of_nat (length market_data)
                      end)))
  /\ (forall msg, avg_salary market_data <> Raise (ZeroDivisionError msg)).
Proof.
  split.
  - intros Hs.
    assert (avg_salary market_data
            = Ok (VInt (match market_data with
                        | [] => 0
                        | _ :: _ => sum_Z salaries / Z.of_nat (length market_data)
                        end))) as Havg.
    { unfold avg_salary. destruct market_data as [|item rest]; [reflexivity |].
      rewrite (int_fields _ _ _ Hs). unfold py_sum. rewrite py_sum_from_ints.
      simpl rbind. unfold py_floordiv.
      destruct (Z.eqb_spec (Z.of_nat (length (item :: rest))) 0) as [H0|_].
      - simpl in H0. lia.
      - reflexivity. }
    split; [exact Havg |].
    intros sector prospects context H. unfold aggregate_context in H.
    rewrite Havg in H. simpl in H.
    destruct (py_sum _) as [total|e]; simpl in H; [| discriminate].
    inversion H. now simplify_map_eq.
  - intros msg H. unfold avg_salary in H.
    destruct market_data as [|item rest]; [discriminate |].
    destruct (py_sum _) as [total|e] eqn:Hsum; simpl in H.
    + apply py_floordiv_raises in H as [m Hm]; [discriminate |]. simpl. lia.
    + inversion H; subst. apply py_sum_from_raises in Hsum as [m Hm]. discriminate.
Qed.

(** ** The Data Source Reader (lines 83 to 101) *)

(** C8.  Neither reader raises.  When the body of its [try] fails, the
    reader logs the error and returns the empty list; this covers a missing
    file and contents that pandas rejects. *)
Theorem readers_never_raise (env : Env) (limit : Z) (w : World) :
  (exists rows w', get_prospects env limit w = (Ok rows, w'))
  /\ (exists rows w', get_market_data env w = (Ok rows, w'))
  /\ (forall e w1,
        get_prospects_try env limit w = (Raise e, w1) ->
        get_prospects env limit w
        = (Ok [], add_log ERROR ("Error reading prospects CSV: " +:+ exn_str e) w1))
  /\ (forall e w1,
        get_market_data_try env w = (Raise e, w1) ->
        get_market_data env w
        = (Ok [], add_log ERROR ("Error reading market data CSV: " +:+ exn_str e) w1))
  /\ (fs w !! PROSPECTS_CSV (config env) = None ->
      get_prospects_try env limit w
      = (Raise (missing_file_error (PROSPECTS_CSV (config env))), w))
  /\ (fs w !! MARKET_DATA_CSV (config env) = None ->
      get_market_data_try env w
      = (Raise (missing_file_error (MARKET_DATA_CSV (config env))), w))
  /\ (forall content e,
        fs w !! PROSPECTS_CSV (config env) = Some content ->
        parse_csv env content = Raise e ->
        get_prospects_try env limit w = (Raise e, w))
  /\ (forall content e,
        fs w !! MARKET_DATA_CSV (config env) = Some content ->
        parse_csv env content = Raise e ->
        get_market_data_try env w = (Raise e, w)).
Proof.
  unfold get_prospects, get_market_data, try_except.
  repeat split.
  - destruct (get_prospects_try env limit w) as [[rows|e] w1]; eauto.
  - destruct (get_market_data_try env w) as [[rows|e] w1]; eauto.
  - intros e w1 ->. reflexivity.
  - intros e w1 ->. reflexivity.
  - intros H. unfold get_prospects_try, bind, read_csv. now rewrite H.
  - intros H. unfold get_market_data_try, bind, read_csv. now rewrite H.
  - intros content e H He. unfold get_prospects_try, bind, read_csv. now rewrite H, He.
  - intros content e H He. unfold get_market_data_try, bind, read_csv. now rewrite H, He.
Qed.

(** ** The Language-Model Client (lines 132 to 174) *)

(** C1, as the code has it.  Once the context block is built, the client
    does not raise: it returns the generated text when the API call
    succeeds, and on an error of the call it logs the error and returns
    'Error generating report: ' followed by the error.  An error met while
    the context block is built, before the call, reaches the caller. *)
Theorem generate_report_never_raises_after_context (env : Env) (prompt : string)
    (prospect_data : Dict) (market_context : list Dict) (w : World) :
  (forall context,
     build_context prospect_data market_context = Ok context ->
     match messages_create env (CLAUDE_MODEL (config env)) 4000
                           (prompt +:+ nl +:+ nl +:+ context) with
     | Ok text =>
         generate_report env prompt prospect_data market_context w = (Ok text, w)
     | Raise e =>
         generate_report env prompt prospect_data market_context w
         = (Ok ("Error generating report: " +:+ exn_str e),
            add_log ERROR ("Claude API error: " +:+ exn_str e) w)
     end)
  /\ (forall e,
        build_context prospect_data market_context = Raise e ->
        generate_report env prompt prospect_data market_context w = (Raise e, w)).
Proof.
  unfold generate_report, bind, lift, try_except. split.
  - intros context ->.
    destruct (messages_create env _ _ _); reflexivity.
  - intros e ->. reflexivity.
Qed.

(** ** The analytics file (lines 103 to 123) *)

Ltac fs_simpl :=
  repeat first [ rewrite lookup_insert_eq
               | rewrite insert_insert_eq
               | progress cbn [negb fs log ticks default from_option id] ].





(** ** Ranking by tier score (lines 86 to 89) *)

Section Ranking.

Variable col : string.

Lemma key_ltb_asym (a b : SortKey) : key_ltb a b = true -> key_ltb b a = false.
Proof.
  destruct a as [x|x], b as [y|y]; simpl; try congruence.
  - intros H. apply Z.ltb_lt in H. apply Z.ltb_ge. lia.
  - unfold String.ltb. rewrite (String.compare_antisym y x).
    destruct (String.compare x y); simpl; congruence.
Qed.

Lemma insert_desc_head (row r : Dict) (rest : list Dict) :
  HdRel (not_below col) r rest -> not_below col r row ->
  HdRel (not_below col) r (insert_desc col row rest).
Proof.
  intros Hhd Hrow. destruct rest as [|r' rest]; simpl.
  - now constructor.
  - destruct (key_ltb _ _); constructor; [now inversion Hhd | exact Hrow].
Qed.

Lemma insert_desc_sorted (row : Dict) (rows : list Dict) :
  Sorted (not_below col) rows -> Sorted (not_below col) (insert_desc col row rows).
Proof.
  induction 1 as [|r rest Hs IH Hhd]; simpl.
  - repeat constructor.
  - destruct (key_ltb (sort_key (dict_get row col)) (sort_key (dict_get r col))) eqn:Hlt.
    + constructor; [exact IH |].
      apply insert_desc_head; [exact Hhd |]. now apply key_ltb_asym.
    + constructor; [now constructor | now constructor].
Qed.

Lemma sort_desc_sorted (rows : list Dict) : Sorted (not_below col) (sort_desc col rows).
Proof.
  induction rows as [|row rows IH]; simpl; [constructor |].
  now apply insert_desc_sorted.
Qed.

Lemma insert_desc_Forall (P : Dict -> Prop) (row : Dict) (rows : list Dict) :
  P row -> Forall P rows -> Forall P (insert_desc col row rows).
Proof.
  intros Hrow. induction 1 as [|r rest Hr Hrest IH]; simpl.
  - now repeat constructor.
  - destruct (key_ltb _ _); repeat constructor; auto.
Qed.

Lemma sort_desc_Forall (P : Dict -> Prop) (rows : list Dict) :
  Forall P rows -> Forall P (sort_desc col rows).
Proof.
  induction 1 as [|r rest Hr Hrest IH]; simpl; [constructor |].
  now apply insert_desc_Forall.
Qed.

Lemma insert_desc_length (row : Dict) (rows : list Dict) :
  length (insert_desc col row rows) = S (length rows).
Proof.
  induction rows as [|r rest IH]; simpl; [reflexivity |].
  destruct (key_ltb _ _); simpl; [now rewrite IH | reflexivity].
Qed.

Lemma sort_desc_length (rows : list Dict) : length (sort_desc col rows) = length rows.
Proof.
  induction rows as [|r rest IH]; simpl; [reflexivity |].
  now rewrite insert_desc_length, IH.
Qed.

Lemma Sorted_missing (rows : list Dict) :
  Forall (fun r => is_na (dict_get r col) = true) rows -> Sorted (row_ge col) rows.
Proof.
  induction 1 as [|r rest Hr Hrest IH]; constructor; [exact IH |].
  destruct Hrest as [|r' rest' Hr' _]; constructor.
  unfold row_ge, score_ge. now rewrite Hr'.
Qed.

Lemma Sorted_present_then_missing (present missing : list Dict) :
  Sorted (not_below col) present ->
  Forall (fun r => is_na (dict_get r col) = false) present ->
  Forall (fun r => is_na (dict_get r col) = true) missing ->
  Sorted (row_ge col) (present ++ missing).
Proof.
  intros Hs Hp Hm. induction Hs as [|r rest Hs IH Hhd]; simpl.
  - now apply Sorted_missing.
  - inversion Hp as [|? ? Hr Hrest]; subst. constructor; [now apply IH |].
    destruct rest as [|r' rest]; simpl.
    + destruct Hm as [|m missing Hm _]; constructor.
      unfold row_ge, score_ge. now rewrite Hm.
    + constructor. inversion Hhd as [|? ? Hrr']; subst.
      unfold row_ge, score_ge. rewrite Hr. unfold not_below in Hrr'.
      rewrite Hrr'. now rewrite orb_true_r.
Qed.

Lemma sort_values_sorted (df sorted : DataFrame) :
  sort_values col df = Ok sorted -> Sorted (row_ge col) (df_rows sorted).
Proof.
  unfold sort_values. intros H.
  destruct (bool_decide (col ∈ df_columns df)); [| discriminate].
  assert (Forall (fun r => is_na (dict_get r col) = true)
            (List.filter (fun r => is_na (dict_get r col)) (df_rows df))) as Hm.
  { apply List.Forall_forall. intros r Hr. now apply filter_In in Hr. }
  assert (Forall (fun r => is_na (dict_get r col) = false)
            (List.filter (fun r => negb (is_na (dict_get r col))) (df_rows df))) as Hp.
  { apply List.Forall_forall. intros r Hr. apply filter_In in Hr as [_ Hr].
    now apply negb_true_iff in Hr. }
  destruct (List.filter (fun r => negb (is_na (dict_get r col))) (df_rows df))
    as [|r0 present] eqn:Hpresent.
  - inversion H; subst. simpl. now apply Sorted_missing.
  - destruct (forallb _ _); [| discriminate].
    injection H as <-. cbn [df_rows].
    apply Sorted_present_then_missing;
      [apply (sort_desc_sorted (r0 :: present)) | | exact Hm].
    now apply (sort_desc_Forall _ (r0 :: present)).
Qed.

End Ranking.

Lemma Sorted_adjacent {A} (R : A -> A -> Prop) (l : list A) :
  Sorted R l ->
  forall i a b, l !! i = Some a -> l !! S i = Some b -> R a b.
Proof.
  induction 1 as [|x l Hs IH Hhd]; intros i a b Ha Hb; [discriminate |].
  destruct i as [|i]; simpl in Ha, Hb.
  - inversion Ha; subst. destruct l as [|y l]; [discriminate |].
    inversion Hb; subst. now inversion Hhd.
  - eapply IH; eauto.
Qed.

Lemma head_rows (n : Z) (df : DataFrame) :
  exists k, df_rows (head n df) = take k (df_rows df)
            /\ (0 <= n -> (k <= Z.to_nat n)%nat).
Proof.
  unfold head. destruct (Z.leb_spec 0 n); simpl; eexists; split; eauto; lia.
Qed.

(** What [get_prospects] returns: nothing, or the head of the ranked frame. *)
Lemma get_prospects_rows (env : Env) (limit : Z) (w : World)
    (rows : list Dict) (w' : World) :
  get_prospects env limit w = (Ok rows, w') ->
  rows = []
  \/ exists df sorted,
       sort_values "tier_score" df = Ok sorted
       /\ rows = df_rows (head limit sorted).
Proof.
  unfold get_prospects, try_except, get_prospects_try, bind, read_csv, lift, ret,
    logger_error, to_dict_records.
  destruct (fs w !! PROSPECTS_CSV (config env)) as [content|].
  - destruct (parse_csv env content) as [df|e].
    + destruct (sort_values "tier_score" df) as [sorted|e] eqn:Hs.
      * intros H. inversion H. right. eauto.
      * intros H. inversion H. now left.
    + intros H. inversion H. now left.
  - intros H. inversion H. now left.
Qed.

Lemma get_prospects_descending (env : Env) (limit : Z) (w : World)
    (rows : list Dict) (w' : World) :
  get_prospects env limit w = (Ok rows, w') ->
  forall i a b, rows !! i = Some a -> rows !! S i = Some b ->
                row_ge "tier_score" a b.
Proof.
  intros H i a b Ha Hb.
  apply get_prospects_rows in H as [-> | [df [sorted [Hs ->]]]]; [discriminate |].
  destruct (head_rows limit sorted) as [k [Hk _]]. rewrite Hk in Ha, Hb.
  apply lookup_take_Some in Ha as [Ha _]. apply lookup_take_Some in Hb as [Hb _].
  exact (Sorted_adjacent _ _ (sort_values_sorted _ _ _ Hs) i a b Ha Hb).
Qed.

Lemma get_prospects_length (env : Env) (limit : Z) (w : World)
    (rows : list Dict) (w' : World) :
  0 <= limit ->
  get_prospects env limit w = (Ok rows, w') ->
  Z.of_nat (length rows) <= limit.
Proof.
  intros Hl H.
  apply get_prospects_rows in H as [-> | [df [sorted [Hs ->]]]]; [simpl; lia |].
  destruct (head_rows limit sorted) as [k [Hk Hle]]. rewrite Hk.
  rewrite length_take. specialize (Hle Hl). lia.
Qed.

Lemma get_prospects_ok (env : Env) (limit : Z) (w : World) :
  exists rows w', get_prospects env limit w = (Ok rows, w').
Proof.
  unfold get_prospects, try_except.
  destruct (get_prospects_try env limit w) as [[rows|e] w1]; eauto.
Qed.

Lemma get_market_data_ok (env : Env) (w : World) :
  exists rows w', get_market_data env w = (Ok rows, w').
Proof.
  unfold get_market_data, try_except.
  destruct (get_market_data_try env w) as [[rows|e] w1]; eauto.
Qed.

(** ** Files are never deleted *)

Lemma fs_grows_refl (w : World) : fs_grows w w.
Proof. intros path H. exact H. Qed.

Lemma fs_grows_trans (w1 w2 w3 : World) :
  fs_grows w1 w2 -> fs_grows w2 w3 -> fs_grows w1 w3.
Proof. intros H12 H23 path H. auto. Qed.

Lemma fs_grows_set_file (path content : string) (w : World) :
  fs_grows w (set_file path content w).
Proof.
  intros q H. simpl. destruct (decide (path = q)) as [->|Hne].
  - rewrite lookup_insert_eq. eauto.
  - now rewrite lookup_insert_ne.
Qed.

Lemma keeps_ret {A} (a : A) : keeps_files (ret a).
Proof. intros w r w' H. inversion H. apply fs_grows_refl. Qed.

Lemma keeps_lift {A} (r : result A) : keeps_files (lift r).
Proof. intros w r' w' H. inversion H. apply fs_grows_refl. Qed.

Lemma keeps_bind {A B} (m : M World A) (k : A -> M World B) :
  keeps_files m -> (forall a, keeps_files (k a)) -> keeps_files (bind m k).
Proof.
  intros Hm Hk w r w' H. unfold bind in H.
  destruct (m w) as [[a|e] w1] eqn:Hmw.
  - eapply fs_grows_trans; [eapply Hm | eapply Hk]; eauto.
  - inversion H; subst. eapply Hm; eauto.
Qed.

Lemma keeps_try {A} (body : M World A) (handler : Exn -> M World A) :
  keeps_files body -> (forall e, keeps_files (handler e)) ->
  keeps_files (try_except body handler).
Proof.
  intros Hb Hh w r w' H. unfold try_except in H.
  destruct (body w) as [[a|e] w1] eqn:Hbw.
  - inversion H; subst. eapply Hb; eauto.
  - eapply fs_grows_trans; [eapply Hb | eapply Hh]; eauto.
Qed.

Lemma keeps_logger_info (msg : string) : keeps_files (logger_info msg).
Proof. intros w r w' H. inversion H. intros path Hp. exact Hp. Qed.

Lemma keeps_logger_error (msg : string) : keeps_files (logger_error msg).
Proof. intros w r w' H. inversion H. intros path Hp. exact Hp. Qed.

Lemma keeps_path_exists (path : string) : keeps_files (path_exists path).
Proof. intros w r w' H. inversion H. apply fs_grows_refl. Qed.

Lemma keeps_f_write (path text : string) : keeps_files (f_write path text).
Proof. intros w r w' H. inversion H. apply fs_grows_set_file. Qed.

Lemma keeps_now (env : Env) : keeps_files (now env).
Proof. intros w r w' H. inversion H. intros path Hp. exact Hp. Qed.

Lemma keeps_read_csv (env : Env) (path : string) : keeps_files (read_csv env path).
Proof.
  intros w r w' H. unfold read_csv in H.
  destruct (fs w !! path); inversion H; apply fs_grows_refl.
Qed.

Lemma keeps_open_w (env : Env) (path : string) : keeps_files (open_w env path).
Proof.
  intros w r w' H. unfold open_w in H.
  destruct (can_open env path); inversion H;
    [apply fs_grows_set_file | apply fs_grows_refl].
Qed.

Lemma keeps_open_a (env : Env) (path : string) : keeps_files (open_a env path).
Proof.
  intros w r w' H. unfold open_a in H.
  destruct (can_open env path); inversion H;
    [apply fs_grows_set_file | apply fs_grows_refl].
Qed.

Create HintDb keeps.
#[local] Hint Resolve keeps_ret keeps_lift keeps_logger_info keeps_logger_error
  keeps_path_exists keeps_f_write keeps_now keeps_read_csv keeps_open_w
  keeps_open_a : keeps.

Ltac keeps_steps :=
  repeat first [ solve [auto with keeps]
               | apply keeps_bind; [| intros ?; cbv beta]
               | apply keeps_try; [| intros ?; cbv beta] ].

Lemma keeps_get_prospects (env : Env) (limit : Z) :
  keeps_files (get_prospects env limit).
Proof. unfold get_prospects, get_prospects_try. keeps_steps. Qed.

Lemma keeps_get_market_data (env : Env) : keeps_files (get_market_data env).
Proof. unfold get_market_data, get_market_data_try. keeps_steps. Qed.

Lemma keeps_save_report_metadata (env : Env) (rd : ReportData) :
  keeps_files (save_report_metadata env rd).
Proof.
  unfold save_report_metadata. keeps_steps.
  destruct (negb _); keeps_steps.
Qed.

Lemma keeps_generate_report (env : Env) (prompt : string) (p : Dict) (m : list Dict) :
  keeps_files (generate_report env prompt p m).
Proof. unfold generate_report. keeps_steps. Qed.

#[local] Hint Resolve keeps_get_prospects keeps_get_market_data
  keeps_save_report_metadata keeps_generate_report : keeps.

Lemma keeps_weekly_write (env : Env) (md : list Dict) (total i : nat) (p : Dict) :
  keeps_files (weekly_write env md total i p).
Proof. unfold weekly_write. keeps_steps. Qed.

Lemma keeps_weekly_record (env : Env) (st : Z) (p : Dict) (path : string) :
  keeps_files (weekly_record env st p path).
Proof. unfold weekly_record. keeps_steps. Qed.

Lemma keeps_weekly_setup (env : Env) (n : Z) : keeps_files (weekly_setup env n).
Proof. unfold weekly_setup. keeps_steps. Qed.

(** The file of a report that was written exists. *)
Lemma weekly_write_exists (env : Env) (md : list Dict) (total i : nat) (p : Dict)
    (w : World) (path : string) (w1 : World) :
  weekly_write env md total i p w = (Ok path, w1) -> is_Some (fs w1 !! path).
Proof.
  unfold weekly_write, bind, logger_info, lift, now, open_w, f_write, ret.
  destruct (generate_report env weekly_prompt p md (add_log INFO _ w))
    as [[content|e] wa]; [| discriminate].
  destruct (py_replace_space _) as [company|e]; [| discriminate].
  cbn [fs log ticks].
  destruct (can_open env _); [| discriminate].
  intros H. injection H as <- <-. cbn [fs set_file]. rewrite lookup_insert_eq. eauto.
Qed.

(** ** The weekly batch (lines 223 to 273) *)

Lemma enumerate_length {A} (xs : list A) :
  forall start, length (enumerate start xs) = length xs.
Proof. induction xs as [|x xs IH]; intros start; simpl; [reflexivity | now rewrite IH]. Qed.

Lemma files_exist_grows (files : list string) (w w' : World) :
  fs_grows w w' ->
  Forall (fun path => is_Some (fs w !! path)) files ->
  Forall (fun path => is_Some (fs w' !! path)) files.
Proof. intros Hg H. eapply List.Forall_impl; [| exact H]. intros path. apply Hg. Qed.

(** One turn: it never raises, it adds the path of its report when the
    report was written and nothing otherwise, and it deletes no file. *)
Lemma weekly_turn_spec (env : Env) (st : Z) (md : list Dict) (total i : nat)
    (p : Dict) (fr : Frame) :
  exists fr',
    weekly_turn env st md total (i, p) fr = (Ok tt, fr')
    /\ report_files fr'
       = report_files fr
         ++ written_paths [(p, fst (weekly_write env md total i p (world fr)))]
    /\ (files_exist fr -> files_exist fr')
    /\ fs_grows (world fr) (world fr').
Proof.
  unfold weekly_turn, try_except, weekly_try, bind, io, append_report_file,
    logger_error, files_exist.
  destruct (weekly_write env md total i p (world fr)) as [[path|e] w1] eqn:Hw;
    cbn [fst snd world report_files written_paths flat_map].
  - pose proof (keeps_weekly_write env md total i p _ _ _ Hw) as Hg1.
    pose proof (weekly_write_exists env md total i p _ _ _ Hw) as Hex.
    destruct (weekly_record env st p path w1) as [[[]|e] w2] eqn:Hr;
      cbn [fst snd world report_files];
      pose proof (keeps_weekly_record env st p path _ _ _ Hr) as Hg2;
      (eexists; split; [reflexivity |]; cbn [world report_files];
       rewrite app_nil_r; repeat split;
       [ intros Hfiles; apply Forall_app; split;
         [ apply (files_exist_grows _ (world fr)); [| exact Hfiles];
           intros q Hq; cbn [fs add_log]; auto
         | repeat constructor; cbn [fs add_log]; auto ]
       | intros q Hq; cbn [fs add_log]; auto ]).
  - pose proof (keeps_weekly_write env md total i p _ _ _ Hw) as Hg1.
    eexists; split; [reflexivity |]. cbn [world report_files].
    rewrite app_nil_r. repeat split.
    + intros Hfiles. apply (files_exist_grows _ (world fr)); [| exact Hfiles].
      intros q Hq. cbn [fs add_log]. auto.
    + intros q Hq. cbn [fs add_log]. auto.
Qed.

(** The loop: it never raises; [report_files] gains the written paths in
    the order of the turns. *)
Lemma weekly_loop_spec (env : Env) (st : Z) (md : list Dict) (total : nat)
    (ips : list (nat * Dict)) :
  forall fr,
    exists fr',
      for_each ips (weekly_turn env st md total) fr = (Ok tt, fr')
      /\ report_files fr'
         = report_files fr ++ written_paths (weekly_outcomes env st md total ips fr)
      /\ (files_exist fr -> files_exist fr')
      /\ fs_grows (world fr) (world fr').
Proof.
  induction ips as [|[i p] ips IH]; intros fr.
  - exists fr. simpl. rewrite app_nil_r.
    repeat split; auto using fs_grows_refl.
  - destruct (weekly_turn_spec env st md total i p fr) as [fr1 [Ht [Hf [He Hg]]]].
    destruct (IH fr1) as [fr2 [Hl [Hf2 [He2 Hg2]]]].
    exists fr2. cbn [for_each]. unfold bind at 1. rewrite Ht.
    split; [exact Hl |]. split; [| split].
    + rewrite Hf2, Hf. cbn [weekly_outcomes]. rewrite Ht. cbn [snd].
      unfold written_paths. cbn [flat_map]. now rewrite app_nil_r, app_assoc.
    + auto.
    + eapply fs_grows_trans; eauto.
Qed.

Lemma written_paths_length (outcomes : list (Dict * result string)) :
  (length (written_paths outcomes) <= length outcomes)%nat.
Proof.
  induction outcomes as [|[p [path|e]] outcomes IH]; simpl; lia.
Qed.

Lemma weekly_outcomes_prospects (env : Env) (st : Z) (md : list Dict) (total : nat)
    (prospects : list Dict) :
  forall start fr,
    map fst (weekly_outcomes env st md total (enumerate start prospects) fr)
    = prospects.
Proof.
  induction prospects as [|p prospects IH]; intros start fr; [reflexivity |].
  cbn [enumerate weekly_outcomes map fst]. now rewrite IH.
Qed.

Lemma weekly_outcomes_length (env : Env) (st : Z) (md : list Dict) (total : nat)
    (ips : list (nat * Dict)) :
  forall fr, length (weekly_outcomes env st md total ips fr) = length ips.
Proof.
  induction ips as [|[i p] ips IH]; intros fr; [reflexivity |].
  cbn [weekly_outcomes length]. now rewrite IH.
Qed.

Lemma weekly_setup_ok (env : Env) (n : Z) (w : World) :
  exists st prospects md w0 wa wb,
    weekly_setup env n w = (Ok (st, prospects, md), w0)
    /\ get_prospects env n wa = (Ok prospects, wb).
Proof.
  unfold weekly_setup, bind, now, logger_info, ret.
  match goal with
  | |- context [get_prospects env n ?wa] =>
      destruct (get_prospects_ok env n wa) as [prospects [wb Hp]]; rewrite Hp
  end.
  destruct (get_market_data_ok env wb) as [md [wc Hm]]. rewrite Hm.
  repeat eexists. exact Hp.
Qed.

(** The batch, given what the lines before the loop produced. *)
Lemma generate_weekly_reports_run (env : Env) (n : Z) (w : World) (st : Z)
    (prospects md : list Dict) (w0 : World) :
  weekly_setup env n w = (Ok (st, prospects, md), w0) ->
  exists w',
    generate_weekly_reports env n w
    = (Ok (written_paths (weekly_outcomes env st md (length prospects)
                            (enumerate 1 prospects) (mkFrame w0 []))), w')
    /\ Forall (fun path => is_Some (fs w' !! path))
         (written_paths (weekly_outcomes env st md (length prospects)
                           (enumerate 1 prospects) (mkFrame w0 []))).
Proof.
  intros Hsetup.
  destruct (weekly_loop_spec env st md (length prospects) (enumerate 1 prospects)
              (mkFrame w0 [])) as [fr' [Hloop [Hfiles [Hex Hg]]]].
  cbn [report_files app] in Hfiles.
  unfold generate_weekly_reports, bind at 1. rewrite Hsetup.
  unfold bind at 1, with_report_files. rewrite Hloop.
  unfold bind, now, logger_info, ret. rewrite Hfiles.
  eexists. split; [reflexivity |].
  cbn [fs add_log]. rewrite <- Hfiles. apply Hex. constructor.
Qed.

(** C2.  The weekly batch never raises.  Each prospect returned by the
    reader gets its turn, in order; a turn whose [try] fails logs the error
    and the loop goes on; the list returned holds exactly the paths of the
    reports that were written, in the order of the turns. *)
Theorem weekly_batch_continues_past_failures (env : Env) (prospects_count : Z)
    (w : World) :
  (exists start_time prospects market_data w0 w',
     weekly_setup env prospects_count w = (Ok (start_time, prospects, market_data), w0)
     /\ generate_weekly_reports env prospects_count w
        = (Ok (written_paths
                 (weekly_outcomes env start_time market_data (length prospects)
                    (enumerate 1 prospects) (mkFrame w0 []))), w')
     /\ map fst (weekly_outcomes env start_time market_data (length prospects)
                   (enumerate 1 prospects) (mkFrame w0 []))
        = prospects)
  /\ (forall start_time market_data total i prospect fr e fr1,
        weekly_try env start_time market_data total i prospect fr = (Raise e, fr1) ->
        weekly_turn env start_time market_data total (i, prospect) fr
        = (Ok tt,
           mkFrame (add_log ERROR ("Error processing prospect "
                                   +:+ py_str (dict_get prospect "company_name")
                                   +:+ ": " +:+ exn_str e) (world fr1))
                   (report_files fr1))).
Proof.
  split.
  - destruct (weekly_setup_ok env prospects_count w)
      as [st [prospects [md [w0 [wa [wb [Hsetup _]]]]]]].
    destruct (generate_weekly_reports_run env prospects_count w st prospects md w0 Hsetup)
      as [w' [Hrun _]].
    exists st, prospects, md, w0, w'.
    split; [exact Hsetup |]. split; [exact Hrun |].
    apply weekly_outcomes_prospects.
  - intros st md total i p fr e fr1 H.
    unfold weekly_turn, try_except. rewrite H. reflexivity.
Qed.

Lemma processed_prospects_setup (env : Env) (n : Z) (w : World) :
  exists wa wb, get_prospects env n wa = (Ok (processed_prospects env n w), wb).
Proof.
  destruct (weekly_setup_ok env n w) as [st [prospects [md [w0 [wa [wb [Hs Hp]]]]]]].
  unfold processed_prospects. rewrite Hs. rewrite weekly_outcomes_prospects. eauto.
Qed.

(** C5, as the code has it.  The weekly batch takes the prospects in
    descending tier-score order, rows without a score last: of two prospects
    processed one after the other, the earlier ranks at least as high as the
    later, so for integer scores the earlier score is greater than or equal
    to the later one.  Equal scores occur, so the order need not be strict. *)
Theorem weekly_batch_order_is_descending (env : Env) (prospects_count : Z)
    (w : World) (i : nat) (earlier later : Dict) :
  processed_prospects env prospects_count w !! i = Some earlier ->
  processed_prospects env prospects_count w !! S i = Some later ->
  score_ge (tier_score earlier) (tier_score later) = true
  /\ forall x y, tier_score earlier = VInt x -> tier_score later = VInt y -> y <= x.
Proof.
  intros Ha Hb.
  destruct (processed_prospects_setup env prospects_count w) as [wa [wb Hp]].
  pose proof (get_prospects_descending env _ _ _ _ Hp i earlier later Ha Hb) as Hge.
  split; [exact Hge |].
  intros x y Hx Hy. unfold row_ge in Hge. unfold tier_score in Hx, Hy.
  rewrite Hx, Hy in Hge. unfold score_ge in Hge. simpl in Hge.
  apply negb_true_iff, Z.ltb_ge in Hge. exact Hge.
Qed.

(** C6, as the code has it.  For every limit N that is not negative, the
    weekly batch returns at most N paths, and each of them names a file that
    exists when the batch returns. *)
Theorem weekly_batch_returns_existing_files (env : Env) (prospects_count : Z)
    (w : World) :
  0 <= prospects_count ->
  exists files w',
    generate_weekly_reports env prospects_count w = (Ok files, w')
    /\ Z.of_nat (length files) <= prospects_count
    /\ Forall (fun path => is_Some (fs w' !! path)) files.
Proof.
  intros Hn.
  destruct (weekly_setup_ok env prospects_count w)
    as [st [prospects [md [w0 [wa [wb [Hsetup Hp]]]]]]].
  destruct (generate_weekly_reports_run env prospects_count w st prospects md w0 Hsetup)
    as [w' [Hrun Hex]].
  eexists. exists w'. split; [exact Hrun |]. split; [| exact Hex].
  pose proof (written_paths_length
                (weekly_outcomes env st md (length prospects)
                   (enumerate 1 prospects) (mkFrame w0 []))) as Hlen.
  assert (length (weekly_outcomes env st md (length prospects)
                    (enumerate 1 prospects) (mkFrame w0 [])) = length prospects) as Hl.
  { now rewrite weekly_outcomes_length, enumerate_length. }
  pose proof (get_prospects_length env _ _ _ _ Hn Hp). lia.
Qed.

(** ** The monthly aggregates (lines 280 to 295) *)

Lemma filter_by_sector_prospects (sector : string) (market_data prospects : list Dict)
    (market_data' prospects' : list Dict) :
  filter_by_sector sector market_data prospects = Ok (market_data', prospects') ->
  (length prospects' <= length prospects)%nat.
Proof.
  unfold filter_by_sector. destruct (bool_decide (sector <> "all")).
  - destruct (filter_r (sector_filter sector "sector") market_data) as [m|e];
      simpl; [| discriminate].
    destruct (filter_r (sector_filter sector "industry") prospects) as [q|e] eqn:Hq;
      simpl; [| discriminate].
    intros H. inversion H; subst. apply filter_r_ok in Hq. subst.
    apply filter_length_le.
  - intros H. inversion H; subst. lia.
Qed.

Lemma aggregate_context_total_prospects (sector : string)
    (market_data prospects : list Dict) (context : Dict) :
  aggregate_context sector market_data prospects = Ok context ->
  context !! "total_prospects" = Some (VInt (Z.of_nat (length prospects))).
Proof.
  unfold aggregate_context.
  destruct (avg_salary market_data) as [avg|e]; simpl; [| discriminate].
  destruct (py_sum _) as [total|e]; simpl; [| discriminate].
  intros H. inversion H. now simplify_map_eq.
Qed.

(** C10.  The monthly report reads at most the 50 first prospects of the
    ranking and filters those; the aggregate 'total_prospects' is the number
    of prospects kept, so it never exceeds 50, however many records of the
    dataset match the filter. *)
Theorem monthly_total_prospects_at_most_50 (env : Env) (sector : string)
    (w : World) (context : Dict) (market_data' : list Dict) (w' : World) :
  monthly_context env sector w = (Ok (context, market_data'), w') ->
  exists market_data w1 top kept,
    get_market_data env w = (Ok market_data, w1)
    /\ get_prospects env 50 w1 = (Ok top, w')
    /\ (length top <= 50)%nat
    /\ filter_by_sector sector market_data top = Ok (market_data', kept)
    /\ context !! "total_prospects" = Some (VInt (Z.of_nat (length kept)))
    /\ Z.of_nat (length kept) <= 50.
Proof.
  unfold monthly_context, bind, lift, ret. intros H.
  destruct (get_market_data env w) as [[market_data|e] w1] eqn:Hm; [| discriminate].
  destruct (get_prospects env 50 w1) as [[top|e] w2] eqn:Hp; [| discriminate].
  destruct (filter_by_sector sector market_data top) as [[m kept]|e] eqn:Hf;
    [| discriminate].
  cbn [fst snd] in H.
  destruct (aggregate_context sector m kept) as [c|e] eqn:Ha; [| discriminate].
  injection H as <- <- <-.
  assert (Z.of_nat (length top) <= 50) as Htop
    by (eapply get_prospects_length; [lia | exact Hp]).
  pose proof (filter_by_sector_prospects _ _ _ _ _ Hf) as Hkept.
  exists market_data, w1, top, kept.
  repeat split; auto; try lia.
  now apply aggregate_context_total_prospects in Ha.
Qed.

(** ** The properties on the sample installation *)





Lemma avg_salary_is_floor_of_mean_witness :
  Forall2 (has_int "average_salary") (df_rows sample_market) [65001; 58000; 41000]
  /\ avg_salary (df_rows sample_market) = Ok (VInt 54667)
  /\ avg_salary [] = Ok (VInt 0).
Proof.
  assert (Forall2 (has_int "average_salary") (df_rows sample_market)
            [65001; 58000; 41000]) as Hs
    by (repeat constructor; vm_compute; reflexivity).
  split; [exact Hs |]. split.
  - exact (proj1 (proj1 (avg_salary_is_floor_of_mean (df_rows sample_market)
                           [65001; 58000; 41000]) Hs)).
  - exact (proj1 (proj1 (avg_salary_is_floor_of_mean [] []) (List.Forall2_nil _))).
Defined.

Lemma readers_never_raise_witness :
  fs empty_world !! PROSPECTS_CSV (config sample_env) = None
  /\ get_prospects sample_env 10 empty_world
     = (Ok [], add_log ERROR
                 "Error reading prospects CSV: [Errno 2] No such file or directory: 'prospects.csv'"
                 empty_world)
  /\ get_market_data sample_env empty_world
     = (Ok [], add_log ERROR
                 "Error reading market data CSV: [Errno 2] No such file or directory: 'market.csv'"
                 empty_world).
Proof.
  pose proof (readers_never_raise sample_env 10 empty_world)
    as [_ [_ [Hp [Hm [Hpm [Hmm _]]]]]].
  split; [reflexivity |]. split.
  - exact (Hp _ _ (Hpm eq_refl)).
  - exact (Hm _ _ (Hmm eq_refl)).
Defined.

Lemma generate_report_never_raises_after_context_witness :
  (exists context, build_context acme (df_rows sample_market) = Ok context)
  /\ generate_report sample_env weekly_prompt acme (df_rows sample_market) sample_world
     = (Ok "Rapport.", sample_world)
  /\ generate_report offline_env weekly_prompt acme (df_rows sample_market) sample_world
     = (Ok "Error generating report: Connection error.",
        add_log ERROR "Claude API error: Connection error." sample_world).
Proof.
  destruct (build_context acme (df_rows sample_market)) as [context|e] eqn:Hc;
    [| vm_compute in Hc; discriminate].
  split; [eauto |]. split.
  - exact (proj1 (generate_report_never_raises_after_context sample_env weekly_prompt
                    acme (df_rows sample_market) sample_world) context Hc).
  - exact (proj1 (generate_report_never_raises_after_context offline_env weekly_prompt
                    acme (df_rows sample_market) sample_world) context Hc).
Defined.

(** The industry cell of [nemo] is empty, so pandas hands over [nan] and the
    membership test of line 153 fails before the guarded call. *)
Lemma generate_report_raises_on_empty_industry :
  generate_report sample_env weekly_prompt nemo (df_rows sample_market) sample_world
  = (Raise (TypeError "argument of type 'float' is not iterable"), sample_world)
  /\ ~ (exists text w',
          generate_report sample_env weekly_prompt nemo (df_rows sample_market)
            sample_world = (Ok text, w')).
Proof.
  assert (generate_report sample_env weekly_prompt nemo (df_rows sample_market)
            sample_world
          = (Raise (TypeError "argument of type 'float' is not iterable"),
             sample_world)) as H by (vm_compute; reflexivity).
  split; [exact H |]. intros [text [w' H']]. rewrite H in H'. discriminate.
Qed.


(** A turn for [nemo] fails while the context is built; the loop logs it
    and goes on with an unchanged list of files. *)
Lemma weekly_batch_continues_past_failures_witness :
  exists e fr1,
    weekly_try sample_env 0 (df_rows sample_market) 1 1 nemo (mkFrame sample_world [])
    = (Raise e, fr1)
    /\ weekly_turn sample_env 0 (df_rows sample_market) 1 (1%nat, nemo)
         (mkFrame sample_world [])
       = (Ok tt,
          mkFrame (add_log ERROR ("Error processing prospect "
                                  +:+ py_str (dict_get nemo "company_name")
                                  +:+ ": " +:+ exn_str e) (world fr1))
                  (report_files fr1)).
Proof.
  destruct (weekly_try sample_env 0 (df_rows sample_market) 1 1 nemo
              (mkFrame sample_world [])) as [[[]|e] fr1] eqn:H;
    [vm_compute in H; discriminate |].
  exists e, fr1. split; [reflexivity |].
  exact (proj2 (weekly_batch_continues_past_failures sample_env 10 sample_world)
               0 (df_rows sample_market) 1%nat 1%nat nemo (mkFrame sample_world [])
               e fr1 H).
Defined.

Lemma weekly_batch_order_is_descending_witness :
  processed_prospects sample_env 10 sample_world !! 0%nat = Some core
  /\ processed_prospects sample_env 10 sample_world !! 1%nat = Some acme
  /\ score_ge (tier_score core) (tier_score acme) = true
  /\ forall x y, tier_score core = VInt x -> tier_score acme = VInt y -> y <= x.
Proof.
  assert (processed_prospects sample_env 10 sample_world !! 0%nat = Some core) as H0
    by (vm_compute; reflexivity).
  assert (processed_prospects sample_env 10 sample_world !! 1%nat = Some acme) as H1
    by (vm_compute; reflexivity).
  split; [exact H0 |]. split; [exact H1 |].
  exact (weekly_batch_order_is_descending sample_env 10 sample_world 0 core acme H0 H1).
Defined.

(** Two prospects with the same tier score are processed one after the
    other: the earlier score is not greater than the later one. *)
Lemma weekly_batch_order_is_not_strict :
  processed_prospects sample_env 10 sample_world = [core; acme; bolt]
  /\ tier_score acme = VInt 80
  /\ tier_score bolt = VInt 80
  /\ ~ (80 > 80).
Proof.
  split; [vm_compute; reflexivity |].
  split; [vm_compute; reflexivity |].
  split; [vm_compute; reflexivity | lia].
Qed.

Lemma weekly_batch_returns_existing_files_witness :
  0 <= 2
  /\ exists files w',
       generate_weekly_reports sample_env 2 sample_world = (Ok files, w')
       /\ Z.of_nat (length files) <= 2
       /\ Forall (fun path => is_Some (fs w' !! path)) files.
Proof.
  split; [lia |].
  apply (weekly_batch_returns_existing_files sample_env 2 sample_world). lia.
Defined.

(** With the limit -1, [head] drops the last of the three ranked rows and
    two reports are returned: more than the limit. *)
Lemma weekly_batch_exceeds_negative_limit :
  -1 <= Z.of_nat (length (df_rows sample_prospects))
  /\ exists w',
       generate_weekly_reports sample_env (-1) sample_world
       = (Ok ["out/Weekly_Report_Core_20250106.md";
              "out/Weekly_Report_Acme_20250106.md"], w')
       /\ ~ (Z.of_nat (length ["out/Weekly_Report_Core_20250106.md";
                               "out/Weekly_Report_Acme_20250106.md"]) <= -1).
Proof.
  split; [simpl; lia |].
  eexists. split; [vm_compute; reflexivity | simpl; lia].
Qed.

Lemma monthly_total_prospects_at_most_50_witness :
  exists context market_data' w',
    monthly_context sample_env "tech" sample_world = (Ok (context, market_data'), w')
    /\ context !! "total_prospects" = Some (VInt 2)
    /\ exists market_data w1 top kept,
         get_market_data sample_env sample_world = (Ok market_data, w1)
         /\ get_prospects sample_env 50 w1 = (Ok top, w')
         /\ (length top <= 50)%nat
         /\ filter_by_sector "tech" market_data top = Ok (market_data', kept)
         /\ context !! "total_prospects" = Some (VInt (Z.of_nat (length kept)))
         /\ Z.of_nat (length kept) <= 50.
Proof.
  destruct (monthly_context sample_env "tech" sample_world)
    as [[[context market_data']|e] w'] eqn:H; [| vm_compute in H; discriminate].
  exists context, market_data', w'. split; [reflexivity |].
  split.
  - vm_compute in H. injection H as <- _ _. vm_compute. reflexivity.
  - exact (monthly_total_prospects_at_most_50 sample_env "tech" sample_world
             context market_data' w' H).
Defined.

(** * Further properties of the script *)

(** ** When the Formatter fails (lines 136 to 161) *)

Lemma py_format_comma_ok_inv (v : Value) (text : string) :
  py_format_comma v = Ok text -> comma_ok v.
Proof. destruct v; simpl; intros H; try discriminate; exact I. Qed.

Lemma sector_matches_inv (p sector : Dict) (hit : bool) :
  sector_matches p sector = Ok hit ->
  has_text "industry" p /\ exists name, dict_get sector "sector" = VStr name.
Proof.
  unfold sector_matches, has_text, py_in.
  destruct (dict_get_or p "industry" (VStr "")); try discriminate.
  destruct (dict_get sector "sector"); try discriminate.
  eauto.
Qed.

Lemma add_market_context_buildable (p : Dict) (m : list Dict) :
  forall context0 context,
    add_market_context p m context0 = Ok context ->
    Forall (fun sector =>
              (exists name, dict_get sector "sector" = VStr name)
              /\ (sector_in_industry p sector = true ->
                  comma_ok (dict_get_or sector "average_salary" (VInt 0)))) m.
Proof.
  induction m as [|sector m IH]; intros context0 context H; [constructor |].
  simpl in H.
  destruct (sector_matches p sector) as [hit|e] eqn:Hm; simpl in H; [| discriminate].
  destruct (sector_matches_inv _ _ _ Hm) as [_ Hname].
  apply sector_matches_ok in Hm. subst hit.
  destruct (sector_in_industry p sector) eqn:Hhit.
  - unfold sector_block in H.
    destruct (py_format_comma _) as [text|e] eqn:Hf; simpl in H; [| discriminate].
    constructor; [| eapply IH; eauto].
    split; [exact Hname |]. intros _. eapply py_format_comma_ok_inv; eauto.
  - constructor; [| eapply IH; eauto].
    split; [exact Hname | intros Hx; congruence].
Qed.

Lemma add_market_context_built (p : Dict) (m : list Dict) :
  has_text "industry" p ->
  Forall (fun sector =>
            (exists name, dict_get sector "sector" = VStr name)
            /\ (sector_in_industry p sector = true ->
                comma_ok (dict_get_or sector "average_salary" (VInt 0)))) m ->
  forall context0, exists context, add_market_context p m context0 = Ok context.
Proof.
  intros [industry Hi] Hm.
  induction Hm as [|sector m [[name Hn] Hc] _ IH]; intros context0.
  - now exists context0.
  - simpl. unfold sector_matches, py_in. rewrite Hi, Hn. simpl.
    unfold sector_in_industry in Hc. rewrite Hi, Hn in Hc.
    destruct (is_infix name industry); [| apply IH].
    destruct (py_format_comma_ok _ (Hc eq_refl)) as [text Ht].
    unfold sector_block. rewrite Ht. simpl. apply IH.
Qed.

(** X1.  The Formatter produces a context block exactly for the inputs
    described by [buildable]; for every other input it raises. *)
Theorem build_context_succeeds_iff_buildable (prospect_data : Dict)
    (market_context : list Dict) :
  (exists context, build_context prospect_data market_context = Ok context)
  <-> buildable prospect_data market_context.
Proof.
  unfold build_context, context_header, buildable. split.
  - intros [context H].
    destruct (py_format_comma (dict_get_or prospect_data "salary_min" (VInt 0)))
      as [tmin|e] eqn:Hmin; simpl in H; [| discriminate].
    destruct (py_format_comma (dict_get_or prospect_data "salary_max" (VInt 0)))
      as [tmax|e] eqn:Hmax; simpl in H; [| discriminate].
    split; [eapply py_format_comma_ok_inv; eauto |].
    split; [eapply py_format_comma_ok_inv; eauto |].
    destruct market_context as [|sector rest]; [now left | right].
    split; [| eapply add_market_context_buildable; eauto].
    simpl in H.
    destruct (sector_matches prospect_data sector) as [hit|e] eqn:Hm;
      simpl in H; [| discriminate].
    now apply sector_matches_inv in Hm.
  - intros [Hmin [Hmax Hrows]].
    destruct (py_format_comma_ok _ Hmin) as [tmin ->].
    destruct (py_format_comma_ok _ Hmax) as [tmax ->]. simpl.
    destruct Hrows as [-> | [Hi Hm]]; [simpl; eauto |].
    now apply add_market_context_built.
Qed.

(** [nemo] has no industry, so no block can be built next to market rows,
    while the same subject alone gets its block. *)
Lemma build_context_succeeds_iff_buildable_witness :
  buildable bolt (df_rows sample_market)
  /\ (exists context, build_context bolt (df_rows sample_market) = Ok context)
  /\ ~ buildable nemo (df_rows sample_market)
  /\ (exists context, build_context nemo [] = Ok context).
Proof.
  assert (exists context, build_context bolt (df_rows sample_market) = Ok context)
    as Hb by (eexists; vm_compute; reflexivity).
  split; [exact (proj1 (build_context_succeeds_iff_buildable _ _) Hb) |].
  split; [exact Hb |]. split.
  - intros H.
    destruct (proj2 (build_context_succeeds_iff_buildable _ _) H) as [c Hc].
    vm_compute in Hc. discriminate.
  - apply (proj2 (build_context_succeeds_iff_buildable nemo [])).
    repeat split; try (vm_compute; exact I). now left.
Defined.

(** ** The market context of a monthly report (lines 289 to 302) *)

Lemma is_infix_nil_r (needle : string) : is_infix needle "" = true <-> needle = "".
Proof.
  rewrite is_infix_spec. split.
  - intros [pre [post H]]. destruct pre; [| discriminate].
    rewrite app_nil_l in H. destruct needle; [reflexivity | discriminate].
  - intros ->. now exists "", "".
Qed.

Lemma aggregate_context_shape (sector : string) (market_data prospects : list Dict)
    (context : Dict) :
  aggregate_context sector market_data prospects = Ok context ->
  exists avg total_positions,
    avg_salary market_data = Ok avg
    /\ py_sum (map (fun item => dict_get_or item "open_positions" (VInt 0))
                   market_data) = Ok total_positions
    /\ context
       = <["sector" := VStr sector]>
         (<["total_prospects" := VInt (Z.of_nat (length prospects))]>
         (<["market_segments" := VInt (Z.of_nat (length market_data))]>
         (<["avg_salary" := avg]>
         (<["total_positions" := total_positions]> ∅)))).
Proof.
  unfold aggregate_context.
  destruct (avg_salary market_data) as [avg|e]; simpl; [| discriminate].
  destruct (py_sum _) as [total|e]; simpl; [| discriminate].
  intros H. inversion H. eauto.
Qed.

(** X2.  The subject of a monthly report is the dict of aggregates, which
    has no 'industry': a market row is listed in the context block only if
    its sector is the empty text.  So when every row has a named sector, the
    block handed to the API is the opening text alone. *)
Theorem monthly_context_block_lists_no_named_sector (sector : string)
    (market_data prospects : list Dict) (context : Dict) :
  aggregate_context sector market_data prospects = Ok context ->
  (forall row, sector_in_industry context row = true
               <-> dict_get row "sector" = VStr "")
  /\ (Forall (fun row => exists name, dict_get row "sector" = VStr name /\ name <> "")
             market_data ->
      exists header,
        context_header context = Ok header
        /\ build_context context market_data = Ok header).
Proof.
  intros H. apply aggregate_context_shape in H as [avg [total [_ [_ Hctx]]]].
  assert (dict_get_or context "industry" (VStr "") = VStr "") as Hind
    by (subst context; unfold dict_get_or; now simplify_map_eq).
  assert (exists header, context_header context = Ok header) as [header Hh].
  { subst context. unfold context_header, dict_get_or. simplify_map_eq.
    simpl. eauto. }
  clear Hctx. split.
  - intros row. unfold sector_in_industry. rewrite Hind.
    destruct (dict_get row "sector") as [| | | |name]; try (split; discriminate).
    rewrite is_infix_nil_r. split; congruence.
  - intros Hnamed. exists header. split; [exact Hh |].
    unfold build_context. rewrite Hh. simpl. clear Hh. generalize header.
    induction Hnamed as [|row rows [name [Hn Hne]] _ IH]; intros h; [reflexivity |].
    simpl. unfold sector_matches, py_in. rewrite Hind, Hn.
    destruct (is_infix name "") eqn:Hi; [| simpl; apply IH].
    apply is_infix_nil_r in Hi. contradiction.
Qed.

Lemma monthly_context_block_lists_no_named_sector_witness :
  exists context,
    aggregate_context "all" (df_rows sample_market) [acme; bolt; core] = Ok context
    /\ exists header,
         context_header context = Ok header
         /\ build_context context (df_rows sample_market) = Ok header.
Proof.
  destruct (aggregate_context "all" (df_rows sample_market) [acme; bolt; core])
    as [context|e] eqn:H; [| vm_compute in H; discriminate].
  exists context. split; [reflexivity |].
  apply (proj2 (monthly_context_block_lists_no_named_sector _ _ _ _ H)).
  repeat constructor; eexists; (split; [vm_compute; reflexivity | discriminate]).
Defined.

(** X3.  With integer salaries and integer position counts in the market
    rows, the aggregates are exactly: the filter text, the number of
    prospects, the number of rows, the floor of the mean salary (0 for no
    rows) and the sum of the position counts. *)
Theorem aggregate_context_of_integer_rows (sector : string)
    (market_data prospects : list Dict) (salaries positions : list Z) :
  Forall2 (has_int "average_salary") market_data salaries ->
  Forall2 (has_int "open_positions") market_data positions ->
  aggregate_context sector market_data prospects
  = Ok (<["sector" := VStr sector]>
        (<["total_prospects" := VInt (Z.of_nat (length prospects))]>
        (<["market_segments" := VInt (Z.of_nat (length market_data))]>
        (<["avg_salary" := VInt (match market_data with
                                 | [] => 0
                                 | _ :: _ => sum_Z salaries / Z.of_nat (length market_data)
                                 end)]>
        (<["total_positions" := VInt (sum_Z positions)]> ∅))))).
Proof.
  intros Hs Hp. unfold aggregate_context.
  assert (avg_salary market_data
          = Ok (VInt (match market_data with
                      | [] => 0
                      | _ :: _ => sum_Z salaries / Z.of_nat (length market_data)
                      end))) as ->.
  { unfold avg_salary. destruct market_data as [|item rest]; [reflexivity |].
    rewrite (int_fields _ _ _ Hs). unfold py_sum. rewrite py_sum_from_ints.
    simpl rbind. unfold py_floordiv.
    destruct (Z.eqb_spec (Z.of_nat (length (item :: rest))) 0) as [H0|_];
      [simpl in H0; lia | reflexivity]. }
  simpl. rewrite (int_fields _ _ _ Hp). unfold py_sum. rewrite py_sum_from_ints.
  reflexivity.
Qed.

Lemma aggregate_context_of_integer_rows_witness :
  aggregate_context "all" (df_rows sample_market) [acme; bolt; core]
  = Ok (<["sector" := VStr "all"]>
        (<["total_prospects" := VInt 3]>
        (<["market_segments" := VInt 3]>
        (<["avg_salary" := VInt 54667]>
        (<["total_positions" := VInt 360]> ∅))))).
Proof.
  apply (aggregate_context_of_integer_rows "all" (df_rows sample_market)
           [acme; bolt; core] [65001; 58000; 41000] [120; 120; 120]);
    repeat constructor; vm_compute; reflexivity.
Defined.

(** ** The prompt templates (lines 186 to 221) *)

(** X4.  [_load_prompt_template] gives the monthly template for 'monthly'
    and the weekly template for every other name, known or not. *)
Theorem load_prompt_template_falls_back_to_weekly (report_type : string) :
  load_prompt_template report_type
  = if decide (report_type = "monthly") then monthly_prompt else weekly_prompt.
Proof.
  unfold load_prompt_template, templates.
  destruct (decide (report_type = "monthly")) as [->|Hm].
  - now simplify_map_eq.
  - destruct (decide (report_type = "weekly")) as [->|Hw]; now simplify_map_eq.
Qed.

(** ** Computations that only read the disk *)

Lemma leaves_ret {A} (a : A) : leaves_files (ret a).
Proof. intros w r w' H. now inversion H. Qed.

Lemma leaves_lift {A} (r : result A) : leaves_files (lift r).
Proof. intros w r' w' H. now inversion H. Qed.

Lemma leaves_bind {A B} (m : M World A) (k : A -> M World B) :
  leaves_files m -> (forall a, leaves_files (k a)) -> leaves_files (bind m k).
Proof.
  intros Hm Hk w r w' H. unfold bind in H.
  destruct (m w) as [[a|e] w1] eqn:Hmw.
  - rewrite (Hk _ _ _ _ H). eapply Hm; eauto.
  - inversion H; subst. eapply Hm; eauto.
Qed.

Lemma leaves_try {A} (body : M World A) (handler : Exn -> M World A) :
  leaves_files body -> (forall e, leaves_files (handler e)) ->
  leaves_files (try_except body handler).
Proof.
  intros Hb Hh w r w' H. unfold try_except in H.
  destruct (body w) as [[a|e] w1] eqn:Hbw.
  - inversion H; subst. eapply Hb; eauto.
  - rewrite (Hh _ _ _ _ H). eapply Hb; eauto.
Qed.

Lemma leaves_logger_info (msg : string) : leaves_files (logger_info msg).
Proof. intros w r w' H. now inversion H. Qed.

Lemma leaves_logger_error (msg : string) : leaves_files (logger_error msg).
Proof. intros w r w' H. now inversion H. Qed.

Lemma leaves_path_exists (path : string) : leaves_files (path_exists path).
Proof. intros w r w' H. now inversion H. Qed.

Lemma leaves_now (env : Env) : leaves_files (now env).
Proof. intros w r w' H. now inversion H. Qed.

Lemma leaves_read_csv (env : Env) (path : string) : leaves_files (read_csv env path).
Proof.
  intros w r w' H. unfold read_csv in H. destruct (fs w !! path); now inversion H.
Qed.

Create HintDb leaves.
#[local] Hint Resolve leaves_ret leaves_lift leaves_logger_info leaves_logger_error
  leaves_path_exists leaves_now leaves_read_csv : leaves.

Ltac leaves_steps :=
  repeat first [ solve [auto with leaves]
               | apply leaves_bind; [| intros ?; cbv beta]
               | apply leaves_try; [| intros ?; cbv beta] ].

Lemma leaves_get_prospects (env : Env) (limit : Z) :
  leaves_files (get_prospects env limit).
Proof. unfold get_prospects, get_prospects_try. leaves_steps. Qed.

Lemma leaves_get_market_data (env : Env) : leaves_files (get_market_data env).
Proof. unfold get_market_data, get_market_data_try. leaves_steps. Qed.

Lemma leaves_generate_report (env : Env) (prompt : string) (p : Dict) (m : list Dict) :
  leaves_files (generate_report env prompt p m).
Proof. unfold generate_report. leaves_steps. Qed.

#[local] Hint Resolve leaves_get_prospects leaves_get_market_data
  leaves_generate_report : leaves.

Lemma leaves_monthly_context (env : Env) (sector : string) :
  leaves_files (monthly_context env sector).
Proof. unfold monthly_context. leaves_steps. Qed.

Lemma leaves_weekly_setup (env : Env) (n : Z) : leaves_files (weekly_setup env n).
Proof. unfold weekly_setup. leaves_steps. Qed.

(** ** One weekly report (lines 232 to 268) *)

(** X5.  A turn of the weekly loop that fails before its report is written
    changes no file at all: no report file is created or emptied and the
    analytics file gets no record.  The turn ends normally, with an error
    line in the log and the list of report files as it was. *)
Theorem failed_weekly_write_leaves_disk (env : Env) (start_time : Z)
    (market_data : list Dict) (total i : nat) (prospect : Dict) (fr : Frame)
    (e : Exn) (w1 : World) :
  weekly_write env market_data total i prospect (world fr) = (Raise e, w1) ->
  fs w1 = fs (world fr)
  /\ weekly_turn env start_time market_data total (i, prospect) fr
     = (Ok tt,
        mkFrame (add_log ERROR ("Error processing prospect "
                                +:+ py_str (dict_get prospect "company_name")
                                +:+ ": " +:+ exn_str e) w1)
                (report_files fr)).
Proof.
  intros H. split.
  - revert H.
    unfold weekly_write, bind, logger_info, lift, now, open_w, f_write, ret.
    destruct (generate_report env weekly_prompt prospect market_data
                (add_log INFO _ (world fr))) as [[content|e0] wa] eqn:Hg.
    + apply leaves_generate_report in Hg. cbn [fs add_log] in Hg.
      destruct (py_replace_space _) as [company|e1].
      * cbn [fs log ticks]. destruct (can_open env _); [discriminate |].
        intros H. injection H as _ <-. exact Hg.
      * intros H. injection H as _ <-. exact Hg.
    + apply leaves_generate_report in Hg. cbn [fs add_log] in Hg.
      intros H. injection H as _ <-. exact Hg.
  - unfold weekly_turn, try_except, weekly_try, bind, io. now rewrite H.
Qed.

Lemma failed_weekly_write_leaves_disk_witness :
  exists e w1,
    weekly_write sample_env (df_rows sample_market) 1 1 nemo sample_world
    = (Raise e, w1)
    /\ fs w1 = fs sample_world.
Proof.
  destruct (weekly_write sample_env (df_rows sample_market) 1 1 nemo sample_world)
    as [[path|e] w1] eqn:H; [vm_compute in H; discriminate |].
  exists e, w1. split; [reflexivity |].
  exact (proj1 (failed_weekly_write_leaves_disk sample_env 0 (df_rows sample_market)
                  1 1 nemo (mkFrame sample_world []) e w1 H)).
Defined.



(** X7.  When the API call fails for a prospect whose context block builds,
    whose company name is text and whose report file can be opened, the
    report is written all the same: the turn returns the path, and the file
    holds the heading followed by 'Error generating report: ' and the
    error. *)
Theorem api_failure_is_written_as_report (env : Env) (market_data : list Dict)
    (total i : nat) (prospect : Dict) (w : World) (context company : string)
    (e : Exn) :
  build_context prospect market_data = Ok context ->
  messages_create env (CLAUDE_MODEL (config env)) 4000
    (weekly_prompt +:+ nl +:+ nl +:+ context) = Raise e ->
  dict_get_or prospect "company_name" (VStr "Unknown") = VStr company ->
  can_open env (weekly_path env company (clock env (ticks w))) = true ->
  exists w1,
    weekly_write env market_data total i prospect w
    = (Ok (weekly_path env company (clock env (ticks w))), w1)
    /\ fs w1 !! weekly_path env company (clock env (ticks w))
       = Some (weekly_report_text env prospect (clock env (S (ticks w)))
                 ("Error generating report: " +:+ exn_str e)).
Proof.
  intros Hc Hapi Hname Hopen.
  unfold weekly_write, generate_report, bind, logger_info, lift, try_except,
    logger_error, now, open_w, f_write, ret.
  rewrite Hc. cbv beta iota zeta. rewrite Hapi. cbv beta iota zeta.
  rewrite Hname. cbn [py_replace_space fs log ticks add_log].
  fold (weekly_path env company (clock env (ticks w))).
  rewrite Hopen. eexists. split; [reflexivity |].
  unfold set_file. fs_simpl. unfold weekly_report_text.
  now rewrite app_nil_l, append_assoc.
Qed.

Lemma api_failure_is_written_as_report_witness :
  exists w1,
    weekly_write offline_env (df_rows sample_market) 1 1 acme sample_world
    = (Ok "out/Weekly_Report_Acme_20250106.md", w1)
    /\ fs w1 !! "out/Weekly_Report_Acme_20250106.md"
       = Some (weekly_report_text offline_env acme 1000000
                 "Error generating report: Connection error.").
Proof.
  destruct (build_context acme (df_rows sample_market)) as [context|e] eqn:Hc;
    [| vm_compute in Hc; discriminate].
  exact (api_failure_is_written_as_report offline_env (df_rows sample_market) 1 1 acme
           sample_world context "Acme" (LibraryError "Connection error.")
           Hc eq_refl eq_refl eq_refl).
Defined.

(** X8.  Without the prospects file the weekly batch returns the empty list
    and changes no file, whatever the limit. *)
Theorem weekly_batch_without_prospects_file (env : Env) (prospects_count : Z)
    (w : World) :
  fs w !! PROSPECTS_CSV (config env) = None ->
  exists w',
    generate_weekly_reports env prospects_count w = (Ok [], w')
    /\ fs w' = fs w.
Proof.
  intros Hmissing.
  unfold generate_weekly_reports, weekly_setup, bind, now, logger_info.
  unfold get_prospects at 1, try_except, get_prospects_try, bind, read_csv.
  cbn [fs add_log]. rewrite Hmissing. unfold logger_error, ret.
  match goal with
  | |- context [get_market_data env ?wa] =>
      destruct (get_market_data env wa) as [[md|e0] wm] eqn:Hm;
      [ pose proof (leaves_get_market_data env _ _ _ Hm) as Hfs
      | destruct (get_market_data_ok env wa) as [md [wm' Hm']]; congruence ]
  end.
  cbn [fs add_log] in Hfs.
  unfold with_report_files. cbn [enumerate for_each ret report_files world fs add_log].
  eexists. split; [reflexivity | exact Hfs].
Qed.

Lemma weekly_batch_without_prospects_file_witness :
  exists w',
    generate_weekly_reports sample_env 10 empty_world = (Ok [], w')
    /\ fs w' = fs empty_world.
Proof.
  exact (weekly_batch_without_prospects_file sample_env 10 empty_world eq_refl).
Defined.

(** ** What [get_prospects] returns (lines 83 to 92) *)

Lemma insert_desc_perm (col : string) (row : Dict) (rows : list Dict) :
  Permutation (insert_desc col row rows) (row :: rows).
Proof.
  induction rows as [|r rest IH]; simpl; [reflexivity |].
  destruct (key_ltb _ _); [| reflexivity].
  rewrite IH. apply perm_swap.
Qed.

Lemma sort_desc_perm (col : string) (rows : list Dict) :
  Permutation (sort_desc col rows) rows.
Proof.
  induction rows as [|r rest IH]; simpl; [reflexivity |].
  rewrite insert_desc_perm. now constructor.
Qed.

Lemma filter_split_perm {A} (f : A -> bool) (l : list A) :
  Permutation (List.filter (fun x => negb (f x)) l ++ List.filter f l) l.
Proof.
  induction l as [|x l IH]; simpl; [reflexivity |].
  destruct (f x); simpl.
  - rewrite <- Permutation_middle. now constructor.
  - now constructor.
Qed.

Lemma sort_values_perm (col : string) (df sorted : DataFrame) :
  sort_values col df = Ok sorted -> Permutation (df_rows sorted) (df_rows df).
Proof.
  unfold sort_values. intros H.
  destruct (bool_decide (col ∈ df_columns df)); [| discriminate].
  pose proof (filter_split_perm (fun r => is_na (dict_get r col)) (df_rows df)) as Hp.
  destruct (List.filter (fun r => negb (is_na (dict_get r col))) (df_rows df))
    as [|r0 present] eqn:Hpresent.
  - injection H as <-. exact Hp.
  - destruct (forallb _ _); [| discriminate].
    injection H as <-. cbn [df_rows].
    eapply Permutation_trans; [| exact Hp].
    apply Permutation_app_tail. apply (sort_desc_perm col (r0 :: present)).
Qed.

Lemma head_take (n : Z) (df : DataFrame) :
  df_rows (head n df) = take (head_count n (length (df_rows df))) (df_rows df).
Proof.
  unfold head, head_count. cbn [df_rows].
  destruct (Z.leb 0 n); [| reflexivity].
  destruct (Nat.le_ge_cases (Z.to_nat n) (length (df_rows df))) as [Hle|Hge].
  - now rewrite Nat.min_l.
  - rewrite Nat.min_r by exact Hge. now rewrite !firstn_all2 by lia.
Qed.

Lemma get_prospects_parsed (env : Env) (limit : Z) (w : World) (content : string)
    (df : DataFrame) :
  fs w !! PROSPECTS_CSV (config env) = Some content ->
  parse_csv env content = Ok df ->
  get_prospects env limit w
  = match sort_values "tier_score" df with
    | Ok sorted => (Ok (df_rows (head limit sorted)), w)
    | Raise e => (Ok [], add_log ERROR ("Error reading prospects CSV: " +:+ exn_str e) w)
    end.
Proof.
  intros Hf Hp.
  unfold get_prospects, try_except, get_prospects_try, bind, read_csv, lift, ret,
    logger_error, to_dict_records.
  rewrite Hf, Hp. now destruct (sort_values "tier_score" df).
Qed.

(** X9.  Whatever the limit, negative ones included, the records returned by
    [get_prospects] are rows of the parsed file, none of them more often
    than the file has it.  When the ranking succeeds and the limit is at
    least the number of rows, every row of the file is returned. *)
Theorem get_prospects_returns_rows_of_the_file (env : Env) (limit : Z) (w : World)
    (content : string) (df : DataFrame) :
  fs w !! PROSPECTS_CSV (config env) = Some content ->
  parse_csv env content = Ok df ->
  exists rows left_out w',
    get_prospects env limit w = (Ok rows, w')
    /\ Permutation (rows ++ left_out) (df_rows df)
    /\ (forall sorted,
          sort_values "tier_score" df = Ok sorted ->
          Z.of_nat (length (df_rows df)) <= limit ->
          left_out = []).
Proof.
  intros Hf Hp. rewrite (get_prospects_parsed env limit w content df Hf Hp).
  destruct (sort_values "tier_score" df) as [sorted|e] eqn:Hs.
  - pose proof (sort_values_perm _ _ _ Hs) as Hperm.
    exists (df_rows (head limit sorted)),
           (drop (head_count limit (length (df_rows sorted))) (df_rows sorted)), w.
    split; [reflexivity |]. split.
    + rewrite head_take, take_drop. exact Hperm.
    + intros sorted' Hs' Hlimit. apply drop_ge.
      apply Permutation_length in Hperm. unfold head_count.
      destruct (Z.leb_spec 0 limit); lia.
  - exists [], (df_rows df). eexists. split; [reflexivity |].
    split; [reflexivity | intros sorted' Hs'; discriminate].
Qed.

Lemma get_prospects_returns_rows_of_the_file_witness :
  exists rows left_out w',
    get_prospects sample_env (-1) sample_world = (Ok rows, w')
    /\ Permutation (rows ++ left_out) [acme; bolt; core]
    /\ get_prospects sample_env 3 sample_world = (Ok [core; acme; bolt], sample_world).
Proof.
  destruct (get_prospects_returns_rows_of_the_file sample_env (-1) sample_world
              prospects_text sample_prospects eq_refl eq_refl)
    as [rows [left_out [w' [Hg [Hperm _]]]]].
  exists rows, left_out, w'. split; [exact Hg |]. split; [exact Hperm |].
  vm_compute. reflexivity.
Defined.

Lemma int_rows_present (col : string) (rows : list Dict) :
  Forall (fun r => exists x, dict_get r col = VInt x) rows ->
  List.filter (fun r => negb (is_na (dict_get r col))) rows = rows
  /\ List.filter (fun r => is_na (dict_get r col)) rows = []
  /\ forall r0, forallb (fun r => same_kind (sort_key (dict_get r0 col))
                                           (sort_key (dict_get r col))) rows
                = match sort_key (dict_get r0 col) with
                  | KNum _ => true
                  | KStr _ => match rows with [] => true | _ :: _ => false end
                  end.
Proof.
  induction 1 as [|r rest [x Hx] _ [IH1 [IH2 IH3]]]; simpl.
  - repeat split. intros r0. now destruct (sort_key _).
  - rewrite Hx. simpl. rewrite IH1, IH2. repeat split.
    intros r0. rewrite IH3. destruct (sort_key (dict_get r0 col)); reflexivity.
Qed.

Lemma sort_values_int_rows (col : string) (df : DataFrame) :
  col ∈ df_columns df ->
  Forall (fun r => exists x, dict_get r col = VInt x) (df_rows df) ->
  sort_values col df = Ok (mkDataFrame (df_columns df) (sort_desc col (df_rows df))).
Proof.
  intros Hcol Hint. unfold sort_values.
  rewrite bool_decide_eq_true_2 by exact Hcol.
  destruct (int_rows_present col _ Hint) as [-> [-> Hkind]].
  destruct (df_rows df) as [|r0 rest] eqn:Hrows; [reflexivity |].
  rewrite Hkind. inversion Hint as [|? ? [x Hx] _]; subst.
  rewrite Hx. simpl sort_key. cbv iota. now rewrite app_nil_r.
Qed.

Lemma int_score_ge_trans (col : string) (a b c : Dict) :
  int_score_ge col a b -> int_score_ge col b c -> int_score_ge col a c.
Proof.
  intros [x [y [Ha [Hb Hxy]]]] [y' [z [Hb' [Hc Hyz]]]].
  rewrite Hb in Hb'. injection Hb' as <-.
  exists x, z. repeat split; auto. lia.
Qed.

Lemma sort_desc_int_sorted (col : string) (rows : list Dict) :
  Forall (fun r => exists x, dict_get r col = VInt x) rows ->
  StronglySorted (int_score_ge col) (sort_desc col rows).
Proof.
  intros Hint.
  apply Sorted_StronglySorted; [intros a b c; apply int_score_ge_trans |].
  pose proof (sort_desc_sorted col rows) as Hs.
  pose proof (sort_desc_Forall col _ rows Hint) as Hall.
  induction Hs as [|r rest Hs IH Hhd]; [constructor |].
  inversion Hall as [|? ? [x Hx] Hrest]; subst.
  constructor; [now apply IH |].
  destruct Hhd as [|r' rest' Hrr']; constructor.
  inversion Hrest as [|? ? [y Hy] _]; subst.
  exists x, y. repeat split; auto.
  unfold not_below in Hrr'. rewrite Hx, Hy in Hrr'. simpl in Hrr'.
  now apply Z.ltb_ge in Hrr'.
Qed.

Lemma StronglySorted_cross {A} (R : A -> A -> Prop) (l1 l2 : list A) :
  StronglySorted R (l1 ++ l2) ->
  forall a b, In a l1 -> In b l2 -> R a b.
Proof.
  induction l1 as [|x l1 IH]; intros Hs a b Ha Hb; [contradiction |].
  simpl in Hs. inversion Hs as [|? ? Hrest Hx]; subst.
  destruct Ha as [<- | Ha].
  - rewrite List.Forall_forall in Hx. apply Hx. apply in_or_app. now right.
  - eapply IH; eauto.
Qed.

(** X10.  For a prospects file whose tier scores are all integers and a
    limit N that is not negative, [get_prospects] returns the top N: the
    returned records and the ones left out make up the file, the number
    returned is the smaller of N and the number of rows, and every returned
    record has a score at least as high as every record left out. *)
Theorem get_prospects_returns_the_top (env : Env) (limit : Z) (w : World)
    (content : string) (df : DataFrame) :
  fs w !! PROSPECTS_CSV (config env) = Some content ->
  parse_csv env content = Ok df ->
  "tier_score" ∈ df_columns df ->
  Forall (fun r => exists x, dict_get r "tier_score" = VInt x) (df_rows df) ->
  0 <= limit ->
  exists rows left_out,
    get_prospects env limit w = (Ok rows, w)
    /\ Permutation (rows ++ left_out) (df_rows df)
    /\ length rows = Nat.min (Z.to_nat limit) (length (df_rows df))
    /\ forall a b, In a rows -> In b left_out -> int_score_ge "tier_score" a b.
Proof.
  intros Hf Hp Hcol Hint Hlimit.
  rewrite (get_prospects_parsed env limit w content df Hf Hp).
  rewrite (sort_values_int_rows _ _ Hcol Hint).
  rewrite head_take. cbn [df_rows]. unfold head_count.
  rewrite (proj2 (Z.leb_le 0 limit) Hlimit). rewrite sort_desc_length.
  set (k := Nat.min (Z.to_nat limit) (length (df_rows df))).
  exists (take k (sort_desc "tier_score" (df_rows df))),
         (drop k (sort_desc "tier_score" (df_rows df))).
  split; [reflexivity |]. split; [| split].
  - rewrite take_drop. apply sort_desc_perm.
  - rewrite length_take, sort_desc_length. unfold k. lia.
  - apply StronglySorted_cross. rewrite take_drop.
    now apply sort_desc_int_sorted.
Qed.

Lemma get_prospects_returns_the_top_witness :
  exists left_out,
    get_prospects sample_env 1 sample_world = (Ok [core], sample_world)
    /\ Permutation ([core] ++ left_out) [acme; bolt; core]
    /\ forall b, In b left_out -> int_score_ge "tier_score" core b.
Proof.
  destruct (get_prospects_returns_the_top sample_env 1 sample_world prospects_text
              sample_prospects eq_refl eq_refl)
    as [rows [left_out [Hg [Hperm [_ Htop]]]]].
  - vm_compute. repeat constructor.
  - repeat constructor; eexists; vm_compute; reflexivity.
  - lia.
  - assert (get_prospects sample_env 1 sample_world = (Ok [core], sample_world))
      as Hrun by (vm_compute; reflexivity).
    assert (rows = [core]) as -> by congruence.
    exists left_out. split; [exact Hg |]. split; [exact Hperm |].
    intros b Hb. apply Htop; [now left | exact Hb].
Defined.

(** ** The monthly report (lines 275 to 323) *)





(** X11.  The monthly report has no [try] of its own: an error met while
    the data is read, filtered and aggregated, or while the context block is
    built, leaves [generate_monthly_report] as it is, and no file has been
    written or changed by then. *)
Theorem monthly_report_propagates_data_errors (env : Env) (sector : string)
    (w : World) :
  (forall e w1,
     monthly_context env sector
       (add_log INFO ("Generating monthly report for sector: " +:+ sector) (tick w))
     = (Raise e, w1) ->
     generate_monthly_report env sector w = (Raise e, w1) /\ fs w1 = fs w)
  /\ (forall context market_data w1 e,
        monthly_context env sector
          (add_log INFO ("Generating monthly report for sector: " +:+ sector) (tick w))
        = (Ok (context, market_data), w1) ->
        build_context context market_data = Raise e ->
        generate_monthly_report env sector w = (Raise e, w1) /\ fs w1 = fs w).
Proof.
  split.
  - intros e w1 H. split.
    + unfold generate_monthly_report, bind at 1, now at 1.
      unfold bind at 1, logger_info at 1. unfold bind at 1.
      unfold tick, add_log in H. unfold add_log. cbn [fs log ticks] in *.
      now rewrite H.
    + apply leaves_monthly_context in H. exact H.
  - intros context market_data w1 e H Hb. split.
    + unfold generate_monthly_report, bind at 1, now at 1.
      unfold bind at 1, logger_info at 1. unfold bind at 1.
      unfold tick, add_log in H. unfold add_log. cbn [fs log ticks] in *.
      rewrite H. unfold bind at 1, generate_report, bind at 1, lift.
      cbn [fst snd]. now rewrite Hb.
    + apply leaves_monthly_context in H. exact H.
Qed.

(** The sector cell of one market row is empty, so the filter of a monthly
    report for 'tech' fails on it and the error reaches the caller. *)
Lemma monthly_report_propagates_data_errors_witness :
  exists w1,
    generate_monthly_report gappy_env "tech" sample_world
    = (Raise (AttributeError "'float' object has no attribute 'lower'"), w1)
    /\ fs w1 = fs sample_world.
Proof.
  destruct (monthly_context gappy_env "tech"
              (add_log INFO ("Generating monthly report for sector: " +:+ "tech")
                 (tick sample_world))) as [[cm|e] w1] eqn:H;
    [vm_compute in H; discriminate |].
  assert (e = AttributeError "'float' object has no attribute 'lower'") as ->
    by (vm_compute in H; congruence).
  exists w1.
  exact (proj1 (monthly_report_propagates_data_errors gappy_env "tech" sample_world)
               _ w1 H).
Defined.

(** X12.  Without the two input files the monthly aggregates are computed
    over nothing: both readers give the empty list, the filter keeps
    nothing, and the context holds the filter text and four zeros, whatever
    the filter.  No file is changed. *)
Theorem monthly_context_without_input_files (env : Env) (sector : string) (w : World) :
  fs w !! MARKET_DATA_CSV (config env) = None ->
  fs w !! PROSPECTS_CSV (config env) = None ->
  exists w',
    monthly_context env sector w = (Ok (empty_aggregates sector, []), w')
    /\ fs w' = fs w.
Proof.
  intros Hm Hp.
  unfold monthly_context, bind, get_market_data, get_prospects, try_except,
    get_market_data_try, get_prospects_try, bind, read_csv, logger_error, ret, lift.
  rewrite Hm. cbn [fs add_log]. rewrite Hp.
  unfold filter_by_sector. destruct (bool_decide (sector <> "all"));
    (eexists; split; [reflexivity | reflexivity]).
Qed.

Lemma monthly_context_without_input_files_witness :
  exists w',
    monthly_context sample_env "tech" empty_world
    = (Ok (empty_aggregates "tech", []), w')
    /\ fs w' = fs empty_world.
Proof.
  exact (monthly_context_without_input_files sample_env "tech" empty_world
           eq_refl eq_refl).
Defined.



(** ** The HTTP handlers (lines 329 to 390) *)

Lemma generate_weekly_reports_ok (env : Env) (n : Z) (w : World) :
  exists files w', generate_weekly_reports env n w = (Ok files, w').
Proof.
  destruct (weekly_setup_ok env n w) as [st [prospects [md [w0 [wa [wb [Hs _]]]]]]].
  destruct (generate_weekly_reports_run env n w st prospects md w0 Hs) as [w' [Hr _]].
  eauto.
Qed.

(** X14.  Once the generator exists, the weekly handler never answers 500:
    for every request it answers 200 with the list of the reports of the
    batch and their number, the batch being run for the requested count or
    for 10 when the parameter is absent or not an integer. *)
Theorem weekly_endpoint_always_answers_200 (env : Env) (prospects_arg : option Z)
    (w : World) :
  exists report_files w',
    generate_weekly_reports env (default 10 prospects_arg)
      (add_log INFO ("API request: weekly reports for "
                     +:+ pretty (default 10 prospects_arg) +:+ " prospects") w)
    = (Ok report_files, w')
    /\ weekly_endpoint env prospects_arg w
       = (Ok (mkResponse
                (JObj [("success", JBool true);
                       ("reports", JList (map JStr report_files));
                       ("count", JInt (Z.of_nat (length report_files)));
                       ("message", JStr ("Generated " +:+ pretty (length report_files)
                                         +:+ " weekly reports"))])
                200), w').
Proof.
  destruct (generate_weekly_reports_ok env (default 10 prospects_arg)
              (add_log INFO ("API request: weekly reports for "
                             +:+ pretty (default 10 prospects_arg) +:+ " prospects") w))
    as [files [w' H]].
  exists files, w'. split; [exact H |].
  unfold weekly_endpoint, try_except, bind, logger_info, ret. now rewrite H.
Qed.

(** X15.  Once the generator exists, the monthly handler lets no exception
    out.  When the data of the report cannot be read, filtered or
    aggregated, it answers 500 with the text of the error, logs it, and no
    file has been written. *)
Theorem monthly_endpoint_answers_500_on_data_errors (env : Env)
    (sector_arg : option string) (w : World) (e : Exn) (w1 : World) :
  monthly_context env (default "all" sector_arg)
    (add_log INFO ("Generating monthly report for sector: " +:+ default "all" sector_arg)
       (tick (add_log INFO ("API request: monthly report for sector "
                            +:+ default "all" sector_arg) w)))
  = (Raise e, w1) ->
  monthly_endpoint env sector_arg w
  = (Ok (mkResponse (JObj [("success", JBool false); ("error", JStr (exn_str e))]) 500),
     add_log ERROR ("API error in monthly endpoint: " +:+ exn_str e) w1)
  /\ fs w1 = fs w.
Proof.
  intros H. split.
  - unfold monthly_endpoint, try_except, bind at 1, logger_info at 1.
    unfold bind at 1.
    assert (generate_monthly_report env (default "all" sector_arg)
              (add_log INFO ("API request: monthly report for sector "
                             +:+ default "all" sector_arg) w) = (Raise e, w1)) as ->.
    { unfold generate_monthly_report, bind at 1, now at 1.
      unfold bind at 1, logger_info at 1. unfold bind at 1.
      unfold tick in H. now rewrite H. }
    reflexivity.
  - apply leaves_monthly_context in H. exact H.
Qed.

Lemma monthly_endpoint_answers_500_on_data_errors_witness :
  exists w',
    monthly_endpoint gappy_env (Some "tech") sample_world
    = (Ok (mkResponse
             (JObj [("success", JBool false);
                    ("error", JStr "'float' object has no attribute 'lower'")])
             500), w')
    /\ fs w' = fs sample_world.
Proof.
  destruct (monthly_context gappy_env (default "all" (Some "tech"))
              (add_log INFO ("Generating monthly report for sector: "
                             +:+ default "all" (Some "tech"))
                 (tick (add_log INFO ("API request: monthly report for sector "
                                      +:+ default "all" (Some "tech")) sample_world))))
    as [[cm|e] w1] eqn:H; [vm_compute in H; discriminate |].
  assert (e = AttributeError "'float' object has no attribute 'lower'") as ->
    by (vm_compute in H; congruence).
  destruct (monthly_endpoint_answers_500_on_data_errors gappy_env (Some "tech")
              sample_world _ w1 H) as [Hrun Hfs].
  eexists. split; [exact Hrun | exact Hfs].
Defined.

(** X16.  The health check answers 200 with status 'healthy' whether or not
    the input files exist; its two flags say exactly which of them exist;
    it changes no file and writes no log line. *)
Theorem health_check_reports_input_files (env : Env) (w : World) :
  exists prospects market_data,
    health_check env w
    = (Ok (mkResponse
             (JObj [("status", JStr "healthy");
                    ("timestamp", JStr (isoformat env (clock env (ticks w))));
                    ("csv_files", JObj [("prospects", JBool prospects);
                                        ("market_data", JBool market_data)])])
             200), tick w)
    /\ (prospects = true <-> is_Some (fs w !! PROSPECTS_CSV (config env)))
    /\ (market_data = true <-> is_Some (fs w !! MARKET_DATA_CSV (config env))).
Proof.
  exists (bool_decide (is_Some (fs w !! PROSPECTS_CSV (config env)))),
         (bool_decide (is_Some (fs w !! MARKET_DATA_CSV (config env)))).
  split; [reflexivity |].
  split; apply bool_decide_eq_true.
Qed.
